(** * Credit-Evaluate: the scoring engine of [credit_scoring.py]

    A shallow embedding of [evaluate_customer] and of the Python builtins it
    calls, followed by the properties of the rule table.

    - The input record is a Python [dict]: a finite map from field names to
      dynamically typed values ([gmap string value]).
    - [float(..)], [int(..)], [bool(..)], [str(..)] and [x or y] are modelled
      on those values; an exception is a [Raise] result. [str(..)] of an
      [int] raises beyond CPython's default limit of 4300 digits.
    - Python floats are IEEE binary64 numbers: Rocq's primitive [float].
    - Every sub-score is a Python [int], so category scores and the total are
      integers ([Z]); [round(n, 1)] of an [int] is that [int].
    - The [reasons] list is threaded through the rules as the state of a small
      state-and-exception monad, in the order of the source.
    - Strings are ASCII text ([str.lower] and [str.upper] act on the letters
      a-z and A-Z). *)

From Stdlib Require Import ZArith Floats Ascii Lia.
From stdpp Require Import gmap strings pretty.

Set Warnings "-inexact-float".
Local Open Scope Z_scope.

(* ===================================================================== *)
(** ** Python values and exceptions *)
(* ===================================================================== *)

Inductive value :=
  | VNone
  | VBool (b : bool)
  | VInt (n : Z)
  | VFloat (f : float)
  | VStr (s : string).

Inductive exn := TypeError | ValueError | OverflowError.

Inductive result (A : Type) :=
  | Ok (a : A)
  | Raise (e : exn).
Arguments Ok {A} a.
Arguments Raise {A} e.

(** [data.get(key, default)]: the stored value when the key is present (also
    when that value is [None]), the default otherwise. *)
Definition get (data : gmap string value) (key : string) (dflt : value) : value :=
  match data !! key with
  | Some v => v
  | None => dflt
  end.

(** Truth value of an object, as [bool(x)] and [if x:] compute it. *)
Definition truthy (v : value) : bool :=
  match v with
  | VNone => false
  | VBool b => b
  | VInt n => negb (n =? 0)
  | VFloat f => negb (PrimFloat.eqb f 0%float)
  | VStr s => negb (String.eqb s "")
  end.

(** [x or y]. *)
Definition py_or (x y : value) : value := if truthy x then x else y.

(** [x is True], [x is False]: identity with the boolean singletons. *)
Definition is_True (v : value) : bool :=
  match v with VBool true => true | _ => false end.
Definition is_False (v : value) : bool :=
  match v with VBool false => true | _ => false end.

(** [float(n)] for an [int]: the nearest binary64 number (ties to even);
    [None] stands for the [OverflowError] of an [int] out of range. *)
Definition int_to_float (n : Z) : option float :=
  let f := SF2Prim (binary_normalize prec emax n 0 false) in
  if PrimFloat.is_infinity f then None else Some f.

(** [int(f)] for a [float]: truncation towards zero. *)
Definition float_to_int (f : float) : result Z :=
  match Prim2SF f with
  | S754_nan => Raise ValueError
  | S754_infinity _ => Raise OverflowError
  | S754_zero _ => Ok 0
  | S754_finite s m e =>
      let a := if 0 <=? e then Z.pos m * 2 ^ e else Z.pos m / 2 ^ (- e) in
      Ok (if s then - a else a)
  end.

Definition lower_ascii (c : ascii) : ascii :=
  let n := N_of_ascii c in
  if ((65 <=? n) && (n <=? 90))%N then ascii_of_N (n + 32) else c.

Definition upper_ascii (c : ascii) : ascii :=
  let n := N_of_ascii c in
  if ((97 <=? n) && (n <=? 122))%N then ascii_of_N (n - 32) else c.

(** [s.lower()], [s.upper()]. *)
Fixpoint lower (s : string) : string :=
  match s with
  | EmptyString => EmptyString
  | String c s' => String (lower_ascii c) (lower s')
  end.

Fixpoint upper (s : string) : string :=
  match s with
  | EmptyString => EmptyString
  | String c s' => String (upper_ascii c) (upper s')
  end.

(** The builtins that read or print numerals as text are not part of the
    repository; the scoring rules are stated for any behaviour of them.
    [None] stands for the [ValueError] of a string that is not a numeral. *)
Class Builtins := {
  float_of_str : string -> option float;   (* float(s) for a str *)
  int_of_str : string -> option Z;         (* int(s) for a str *)
  repr_float : float -> string;            (* str(f) for a float *)
}.

(** One concrete choice, used to run the model on closed inputs. It reads
    plain decimal numerals with an optional sign and rejects every other
    text; it prints a float as its integer part followed by ".0", which is
    what Python prints for the integral floats below 1e16. The theorems below
    hold for every choice; the closed examples never reach these three
    functions. *)
Fixpoint digits_value (s : string) (acc : Z) : option Z :=
  match s with
  | EmptyString => Some acc
  | String c s' =>
      let n := N_of_ascii c in
      if ((48 <=? n) && (n <=? 57))%N
      then digits_value s' (10 * acc + Z.of_N (n - 48))
      else None
  end.

Definition plain_int_of_str (s : string) : option Z :=
  match s with
  | EmptyString => None
  | String "-" (String _ _ as ds) => Z.opp <$> digits_value ds 0
  | String "+" (String _ _ as ds) => digits_value ds 0
  | _ => digits_value s 0
  end.

Definition plain_repr_float (f : float) : string :=
  match float_to_int f with
  | Ok n => pretty n +:+ ".0"
  | Raise _ => "nan"
  end.

Definition plain_numerals : Builtins := {|
  float_of_str := fun s => plain_int_of_str s ≫= int_to_float;
  int_of_str := plain_int_of_str;
  repr_float := plain_repr_float;
|}.

(* ===================================================================== *)
(** ** The monad of the function body: reasons so far, or an exception *)
(* ===================================================================== *)

Definition M (A : Type) : Type := list string -> result (A * list string).

#[global] Instance M_ret : MRet M := fun A a rs => Ok (a, rs).

#[global] Instance M_bind : MBind M := fun A B k m rs =>
  match m rs with
  | Ok (a, rs') => k a rs'
  | Raise e => Raise e
  end.

(** [reasons.append(msg)]. *)
Definition append (msg : string) : M unit := fun rs => Ok (tt, rs ++ [msg]).

(** The current contents of [reasons]. *)
Definition read_reasons : M (list string) := fun rs => Ok (rs, rs).

(** A builtin call that may raise. *)
Definition call {A} (r : result A) : M A := fun rs =>
  match r with
  | Ok a => Ok (a, rs)
  | Raise e => Raise e
  end.

(* ===================================================================== *)
(** ** Result record *)
(* ===================================================================== *)

Inductive RiskBand := LOW | MEDIUM | HIGH.

Inductive Decision := APPROVE | CONDITIONAL_APPROVAL | REJECT.

Record ScoreResult := {
  total_score : Z;
  risk_band : RiskBand;
  decision : Decision;
  category_scores : gmap string Z;
  reasons : list string;
}.

Definition _clamp (x lo hi : Z) : Z := Z.max lo (Z.min hi x).

(** [round(n, 1)] of an [int] is the same [int]. *)
Definition round1 (n : Z) : Z := n.

(* ===================================================================== *)
(** ** Conversions and the scoring rules *)
(* ===================================================================== *)

Section Scoring.
Context {B : Builtins}.

(** [float(x)]. *)
Definition py_float (v : value) : result float :=
  match v with
  | VNone => Raise TypeError
  | VBool b => Ok (if b then 1%float else 0%float)
  | VInt n => match int_to_float n with Some f => Ok f | None => Raise OverflowError end
  | VFloat f => Ok f
  | VStr s => match float_of_str s with Some f => Ok f | None => Raise ValueError end
  end.

(** [int(x)]. *)
Definition py_int (v : value) : result Z :=
  match v with
  | VNone => Raise TypeError
  | VBool b => Ok (if b then 1 else 0)
  | VInt n => Ok n
  | VFloat f => float_to_int f
  | VStr s => match int_of_str s with Some n => Ok n | None => Raise ValueError end
  end.

(** [str(n)] of an [int] raises [ValueError] when [n] has more decimal
    digits than CPython's default limit ([sys.int_info.default_max_str_digits],
    4300). *)
Definition max_str_digits : Z := 4300.

(** [str(x)]. *)
Definition py_str (v : value) : result string :=
  match v with
  | VNone => Ok "None"
  | VBool b => Ok (if b then "True" else "False")
  | VInt n =>
      if Z.abs n <? 10 ^ max_str_digits then Ok (pretty n) else Raise ValueError
  | VFloat f => Ok (repr_float f)
  | VStr s => Ok s
  end.

(** [str(x).lower()], [str(x).upper()]. *)
Definition str_lower (v : value) : result string :=
  match py_str v with
  | Ok s => Ok (lower s)
  | Raise e => Raise e
  end.

Definition str_upper (v : value) : result string :=
  match py_str v with
  | Ok s => Ok (upper s)
  | Raise e => Raise e
  end.

(** *** 1) Financial strength (40 points) *)

(** Net Profit Margin (10) *)
Definition score_npm (npm : float) : M Z :=
  if (10 <? npm)%float then mret 10
  else if (5 <? npm)%float then mret 8
  else if (2 <? npm)%float then mret 5
  else if (0 <? npm)%float then mret 2
  else append "Net profit margin is very low or negative.";; mret 0.

(** Current Ratio (8) *)
Definition score_current_ratio (curr_ratio : float) : M Z :=
  if (1.5 <=? curr_ratio)%float then mret 8
  else if (1.2 <=? curr_ratio)%float then mret 6
  else if (1.0 <=? curr_ratio)%float then mret 4
  else append "Current ratio below 1.0 indicates tight liquidity.";; mret 1.

(** Debt-to-Equity (8) *)
Definition score_d2e (d2e : float) : M Z :=
  if (d2e <=? 1)%float then mret 8
  else if (d2e <=? 2)%float then mret 6
  else if (d2e <=? 3)%float then mret 3
  else append "Debt-to-equity is very high.";; mret 0.

(** Bank limit utilisation (8) *)
Definition score_bank (bank_util : float) : M Z :=
  if ((40 <=? bank_util) && (bank_util <=? 80))%float then mret 8
  else if (bank_util <? 40)%float then
    append "Bank limit utilisation is low; could indicate underutilisation of facilities.";;
    mret 6
  else if (bank_util <=? 90)%float then mret 5
  else
    append "Bank limit utilisation consistently >90% indicates stress on working capital.";;
    mret 2.

(** Turnover trend (6) *)
Definition score_trend (trend : string) : M Z :=
  if String.eqb trend "improving" then mret 6
  else if String.eqb trend "stable" then mret 4
  else if String.eqb trend "declining" then
    append "Turnover trend is declining.";; mret 1
  else mret 3.

(** The text compared by the turnover rule:
    [str(data.get("turnover_trend", "stable") or "").lower()]. *)
Definition trend_of (data : gmap string value) : result string :=
  str_lower (py_or (get data "turnover_trend" (VStr "stable")) (VStr "")).

Definition financial_strength_of (data : gmap string value) : M Z :=
  npm ← call (py_float (get data "net_profit_margin" (VFloat 0.0)));
  curr_ratio ← call (py_float (get data "current_ratio" (VFloat 0.0)));
  d2e ← call (py_float (get data "debt_to_equity" (VFloat 0.0)));
  bank_util ← call (py_float (get data "banking_limit_utilisation" (VFloat 0.0)));
  trend ← call (trend_of data);
  s_npm ← score_npm npm;
  s_cr ← score_current_ratio curr_ratio;
  s_d2e ← score_d2e d2e;
  s_bank ← score_bank bank_util;
  s_trend ← score_trend trend;
  let financial_strength := s_npm + s_cr + s_d2e + s_bank + s_trend in
  mret (_clamp financial_strength 0 40).

(** *** 2) Payment behaviour (30 points) *)

(** Days to pay (10) *)
Definition score_days (avg_days : Z) : M Z :=
  if avg_days <=? 30 then mret 10
  else if avg_days <=? 45 then mret 8
  else if avg_days <=? 60 then mret 5
  else if avg_days <=? 90 then
    append "Average payment days are on the higher side.";; mret 2
  else append "Very high average payment days.";; mret 0.

(** Bounced cheques (10) *)
Definition score_bounce (bounces : Z) : M Z :=
  if bounces =? 0 then mret 10
  else if bounces <=? 2 then
    append "Some cheque bounces in last 12 months.";; mret 7
  else if bounces <=? 5 then
    append "Multiple cheque bounces in last 12 months.";; mret 3
  else append "Frequent cheque bounces in last 12 months.";; mret 0.

(** Past default flag (up to -5) *)
Definition score_default_adj (past_default : bool) : M Z :=
  if past_default then
    append "History of default / write-off reported.";; mret (-5)
  else mret 0.

(** [int(data.get("avg_days_to_pay", 45) or 45)]. *)
Definition avg_days_of (data : gmap string value) : result Z :=
  py_int (py_or (get data "avg_days_to_pay" (VInt 45)) (VInt 45)).

Definition payment_behaviour_of (data : gmap string value) : M Z :=
  avg_days ← call (avg_days_of data);
  bounces ← call (py_int (py_or (get data "bounced_cheques_last_12m" (VInt 0)) (VInt 0)));
  let past_default := truthy (get data "past_default_flag" (VBool false)) in
  s_days ← score_days avg_days;
  s_bounce ← score_bounce bounces;
  s_default_adj ← score_default_adj past_default;
  let payment_behaviour := s_days + s_bounce + s_default_adj in
  mret (_clamp payment_behaviour 0 30).

(** *** 3) External checks (15 points) *)

(** GST filing (5) *)
Definition score_gst (gst_filing_timely : value) : M Z :=
  if is_True gst_filing_timely then mret 5
  else if is_False gst_filing_timely then
    append "GST filing not timely.";; mret 1
  else mret 3.

(** Litigation (5) *)
Definition score_lit (active_litigation : value) : M Z :=
  if is_False active_litigation then mret 5
  else if is_True active_litigation then
    append "Active litigation / legal disputes reported.";; mret 1
  else mret 3.

Definition rating_score_map : gmap string Z :=
  list_to_map
    [("AAA", 5); ("AA", 4); ("A", 3); ("BBB", 2); ("BB", 1); ("B", 0); ("C", 0)].

(** External rating (5) *)
Definition score_rating (credit_rating : value) : M Z :=
  if truthy credit_rating then
    cr_up ← call (str_upper credit_rating);
    let s_rating := default 1 (rating_score_map !! cr_up) in
    if String.eqb cr_up "B" || String.eqb cr_up "C" then
      append ("Weak external rating (" +:+ cr_up +:+ ").");; mret s_rating
    else mret s_rating
  else mret 1.

Definition external_checks_of (data : gmap string value) : M Z :=
  let gst_filing_timely := get data "gst_filing_timely" VNone in
  let active_litigation := get data "active_litigation" VNone in
  let credit_rating := get data "credit_rating" VNone in
  s_gst ← score_gst gst_filing_timely;
  s_lit ← score_lit active_litigation;
  s_rating ← score_rating credit_rating;
  let external_checks := s_gst + s_lit + s_rating in
  mret (_clamp external_checks 0 15).

(** *** 4) Business stability (15 points) *)

(** Years in business (6) *)
Definition score_years (years : float) : M Z :=
  if (10 <=? years)%float then mret 6
  else if (5 <=? years)%float then mret 4
  else if (2 <=? years)%float then mret 2
  else append "Limited operating history.";; mret 0.

(** Industry risk (5) *)
Definition score_industry (industry_risk : string) : M Z :=
  if String.eqb industry_risk "low" then mret 5
  else if String.eqb industry_risk "medium" then mret 3
  else if String.eqb industry_risk "high" then
    append "High-risk industry.";; mret 1
  else mret 2.

(** Concentration risk (4) *)
Definition score_conc (top5_share : float) : M Z :=
  if (top5_share <=? 40)%float then mret 4
  else if (top5_share <=? 60)%float then mret 3
  else if (top5_share <=? 80)%float then
    append "Moderate customer concentration.";; mret 2
  else append "Very high dependence on few customers.";; mret 0.

(** Management risk penalty (up to -3), applied to the running sum. *)
Definition mgmt_penalty (mgmt_risk : bool) (stability_raw : Z) : M Z :=
  if mgmt_risk then
    append "Concerns flagged on management integrity / governance.";;
    mret (stability_raw - 3)
  else mret stability_raw.

Definition business_stability_of (data : gmap string value) : M Z :=
  years ← call (py_float (py_or (get data "years_in_business" (VFloat 0.0)) (VFloat 0.0)));
  industry_risk ←
    call (str_lower (py_or (get data "industry_risk" (VStr "medium")) (VStr "medium")));
  top5_share ← call (py_float (py_or (get data "top_5_customer_share" (VFloat 0.0)) (VFloat 0.0)));
  let mgmt_risk := truthy (get data "management_risk_flag" (VBool false)) in
  s_years ← score_years years;
  s_ind ← score_industry industry_risk;
  s_conc ← score_conc top5_share;
  let stability_raw := s_years + s_ind + s_conc in
  stability_raw ← mgmt_penalty mgmt_risk stability_raw;
  mret (_clamp stability_raw 0 15).

(** *** Aggregate score & decision *)

(** Risk band *)
Definition band_of (total_score : Z) : RiskBand :=
  if 75 <=? total_score then LOW
  else if 50 <=? total_score then MEDIUM
  else HIGH.

(** Decision *)
Definition decision_of (risk_band : RiskBand) : Decision :=
  match risk_band with
  | LOW => APPROVE
  | MEDIUM => CONDITIONAL_APPROVAL
  | HIGH => REJECT
  end.

(** The body of [evaluate_customer], run on the reasons collected so far. *)
Definition evaluate_body (data : gmap string value) : M ScoreResult :=
  financial_strength ← financial_strength_of data;
  payment_behaviour ← payment_behaviour_of data;
  external_checks ← external_checks_of data;
  business_stability ← business_stability_of data;
  let total_score :=
    financial_strength + payment_behaviour + external_checks + business_stability in
  let total_score := _clamp total_score 0 100 in
  let risk_band := band_of total_score in
  let decision := decision_of risk_band in
  let category_scores : gmap string Z :=
    <["business_stability" := round1 business_stability]>
      (<["external_checks" := round1 external_checks]>
         (<["payment_behaviour" := round1 payment_behaviour]>
            {["financial_strength" := round1 financial_strength]})) in
  reasons ← read_reasons;
  mret {| total_score := round1 total_score;
          risk_band := risk_band;
          decision := decision;
          category_scores := category_scores;
          reasons := reasons |}.

(** [evaluate_customer(data)]: the body starts from [reasons = []]. *)
Definition evaluate_customer (data : gmap string value) : result ScoreResult :=
  match evaluate_body data [] with
  | Ok (r, _) => Ok r
  | Raise e => Raise e
  end.

(** The sub-score of one field of a record, with the reasons it adds. *)
Definition days_subscore (data : gmap string value) : M Z :=
  avg_days ← call (avg_days_of data); score_days avg_days.

Definition trend_subscore (data : gmap string value) : M Z :=
  trend ← call (trend_of data); score_trend trend.

Definition current_ratio_subscore (data : gmap string value) : M Z :=
  curr_ratio ← call (py_float (get data "current_ratio" (VFloat 0.0)));
  score_current_ratio curr_ratio.

Definition bank_subscore (data : gmap string value) : M Z :=
  bank_util ← call (py_float (get data "banking_limit_utilisation" (VFloat 0.0)));
  score_bank bank_util.

Definition gst_subscore (data : gmap string value) : M Z :=
  score_gst (get data "gst_filing_timely" VNone).

Definition lit_subscore (data : gmap string value) : M Z :=
  score_lit (get data "active_litigation" VNone).

End Scoring.

(* ===================================================================== *)
(** ** Input records of the scenarios *)
(* ===================================================================== *)

Definition strong_applicant : gmap string value :=
  list_to_map
    [("net_profit_margin", VInt 15); ("current_ratio", VFloat 2.0);
     ("debt_to_equity", VFloat 0.5); ("banking_limit_utilisation", VInt 60);
     ("turnover_trend", VStr "improving"); ("avg_days_to_pay", VInt 20);
     ("bounced_cheques_last_12m", VInt 0); ("past_default_flag", VBool false);
     ("gst_filing_timely", VBool true); ("active_litigation", VBool false);
     ("credit_rating", VStr "AAA"); ("years_in_business", VInt 15);
     ("industry_risk", VStr "low"); ("top_5_customer_share", VInt 20);
     ("management_risk_flag", VBool false)].

Definition weak_applicant : gmap string value :=
  list_to_map
    [("net_profit_margin", VInt (-2)); ("current_ratio", VFloat 0.8);
     ("debt_to_equity", VInt 4); ("banking_limit_utilisation", VInt 95);
     ("turnover_trend", VStr "declining"); ("avg_days_to_pay", VInt 120);
     ("bounced_cheques_last_12m", VInt 7); ("past_default_flag", VBool true);
     ("gst_filing_timely", VBool false); ("active_litigation", VBool true);
     ("credit_rating", VStr "C"); ("years_in_business", VInt 1);
     ("industry_risk", VStr "high"); ("top_5_customer_share", VInt 90);
     ("management_risk_flag", VBool true)].

(** The reasons of the weak applicant, in the order the rules append them. *)
Definition weak_applicant_reasons : list string :=
  [ "Net profit margin is very low or negative.";
    "Current ratio below 1.0 indicates tight liquidity.";
    "Debt-to-equity is very high.";
    "Bank limit utilisation consistently >90% indicates stress on working capital.";
    "Turnover trend is declining.";
    "Very high average payment days.";
    "Frequent cheque bounces in last 12 months.";
    "History of default / write-off reported.";
    "GST filing not timely.";
    "Active litigation / legal disputes reported.";
    "Weak external rating (C).";
    "Limited operating history.";
    "High-risk industry.";
    "Very high dependence on few customers.";
    "Concerns flagged on management integrity / governance." ].

(** The published score of a category. *)
Definition category (r : ScoreResult) (name : string) : option Z :=
  category_scores r !! name.

(** The fields [evaluate_customer] reads. *)
Definition fields : list string :=
  [ "net_profit_margin"; "current_ratio"; "debt_to_equity";
    "banking_limit_utilisation"; "turnover_trend";
    "avg_days_to_pay"; "bounced_cheques_last_12m"; "past_default_flag";
    "gst_filing_timely"; "active_litigation"; "credit_rating";
    "years_in_business"; "industry_risk"; "top_5_customer_share";
    "management_risk_flag" ].

(** The numeric fields of the financial-strength category. *)
Definition financial_numeric_fields : list string :=
  [ "net_profit_margin"; "current_ratio"; "debt_to_equity";
    "banking_limit_utilisation" ].


(* ===================================================================== *)
(** ** Calls in a running interpreter *)
(* ===================================================================== *)

(** Between two calls the caller holds the results of earlier calls. The
    [reasons] of a result is a Python list, a mutable object: the store maps
    the address of each list object to its contents. *)
Abbreviation store := (list (list string)).

Definition contents (st : store) (addr : nat) : list string :=
  default [] (st !! addr).

(** [reasons: List[str] = []] (line 56): a new list object at a new address. *)
Definition new_list (st : store) : nat * store := (length st, st ++ [[]]).

(** The body run on the list object at [addr]: every [reasons.append] of
    the body changes that object, and the body touches no other. *)
Definition on_list {A} (addr : nat) (m : M A) (st : store) : result (A * store) :=
  match m (contents st addr) with
  | Ok (a, l) => Ok (a, <[addr := l]> st)
  | Raise e => Raise e
  end.

(** The object a call returns: its [reasons] field is the list object the
    body appended to (line 301), not a copy of it. *)
Record ScoreResultObject := {
  obj_total_score : Z;
  obj_risk_band : RiskBand;
  obj_decision : Decision;
  obj_category_scores : gmap string Z;
  obj_reasons : nat;
}.

(** One call of [evaluate_customer] in a store. *)
Definition evaluate_call `{B : Builtins} (data : gmap string value) (st : store)
    : result (ScoreResultObject * store) :=
  let '(addr, st0) := new_list st in
  match on_list addr (evaluate_body data) st0 with
  | Ok (r, st') =>
      Ok ({| obj_total_score := total_score r;
             obj_risk_band := risk_band r;
             obj_decision := decision r;
             obj_category_scores := category_scores r;
             obj_reasons := addr |}, st')
  | Raise e => Raise e
  end.

(** What the caller reads off a returned object in a given store. *)
Definition read (st : store) (o : ScoreResultObject) : ScoreResult :=
  {| total_score := obj_total_score o;
     risk_band := obj_risk_band o;
     decision := obj_decision o;
     category_scores := obj_category_scores o;
     reasons := contents st (obj_reasons o) |}.


(* ===================================================================== *)
(** ** Vocabulary of the further properties *)
(* ===================================================================== *)

(** The messages the rules of each category can append, in rule order. *)
Definition financial_reasons : list string :=
  [ "Net profit margin is very low or negative.";
    "Current ratio below 1.0 indicates tight liquidity.";
    "Debt-to-equity is very high.";
    "Bank limit utilisation is low; could indicate underutilisation of facilities.";
    "Bank limit utilisation consistently >90% indicates stress on working capital.";
    "Turnover trend is declining." ].

Definition payment_reasons : list string :=
  [ "Average payment days are on the higher side.";
    "Very high average payment days.";
    "Some cheque bounces in last 12 months.";
    "Multiple cheque bounces in last 12 months.";
    "Frequent cheque bounces in last 12 months.";
    "History of default / write-off reported." ].

Definition external_reasons : list string :=
  [ "GST filing not timely.";
    "Active litigation / legal disputes reported.";
    "Weak external rating (B).";
    "Weak external rating (C)." ].

Definition stability_reasons : list string :=
  [ "Limited operating history.";
    "High-risk industry.";
    "Moderate customer concentration.";
    "Very high dependence on few customers.";
    "Concerns flagged on management integrity / governance." ].

Definition all_reasons : list string :=
  financial_reasons ++ payment_reasons ++ external_reasons ++ stability_reasons.

(** A computation that only appends to [reasons]: its value and the
    messages it adds do not depend on the messages already collected. *)
Definition appender {A} (m : M A) : Prop :=
  forall rs,
    m rs = match m [] with
           | Ok (a, l) => Ok (a, rs ++ l)
           | Raise e => Raise e
           end.

(** What one rule (or one category) yields: a score [s] between [lo] and
    [hi], at least [quiet] when no message is added, and messages [l] taken
    in order from [msgs], at most [n] of them. *)
Definition rule_ok (lo hi quiet : Z) (msgs : list string) (n : nat)
    (s : Z) (l : list string) : Prop :=
  lo <= s <= hi /\
  (l = [] -> quiet <= s) /\
  l `sublist_of` msgs /\
  (length l <= n)%nat.

(** A rule never raises, only appends, and yields [rule_ok]. *)
Definition rule_spec (m : M Z) (lo hi quiet : Z) (msgs : list string) (n : nat)
    : Prop :=
  appender m /\ exists s l, m [] = Ok (s, l) /\ rule_ok lo hi quiet msgs n s l.

(** A rule that may raise: it only appends, and yields [rule_ok] whenever
    it returns. *)
Definition rule_sound (m : M Z) (lo hi quiet : Z) (msgs : list string) (n : nat)
    : Prop :=
  appender m /\ forall s l, m [] = Ok (s, l) -> rule_ok lo hi quiet msgs n s l.

Definition is_Ok {A} (r : result A) : Prop := exists a, r = Ok a.

(** The score of a rule, read off a run that starts from no message. *)
Definition value_of (m : M Z) : Z :=
  match m [] with
  | Ok (s, _) => s
  | Raise _ => 0
  end.

(** The text [score_rating] compares: [str(credit_rating).upper()] for a
    truthy rating; a falsy rating is not converted. *)
Definition rating_text `{B : Builtins} (data : gmap string value) : result string :=
  let credit_rating := get data "credit_rating" VNone in
  if truthy credit_rating then str_upper credit_rating else Ok "".

(** The eight numbers and three texts [evaluate_customer] converts, in
    source order. *)
Record numbers := {
  n_npm : float;
  n_curr_ratio : float;
  n_d2e : float;
  n_bank_util : float;
  n_trend : string;
  n_avg_days : Z;
  n_bounces : Z;
  n_rating : string;
  n_years : float;
  n_industry_risk : string;
  n_top5_share : float;
}.

Definition converts `{B : Builtins} (data : gmap string value) (n : numbers) : Prop :=
  py_float (get data "net_profit_margin" (VFloat 0.0)) = Ok (n_npm n) /\
  py_float (get data "current_ratio" (VFloat 0.0)) = Ok (n_curr_ratio n) /\
  py_float (get data "debt_to_equity" (VFloat 0.0)) = Ok (n_d2e n) /\
  py_float (get data "banking_limit_utilisation" (VFloat 0.0)) = Ok (n_bank_util n) /\
  trend_of data = Ok (n_trend n) /\
  py_int (py_or (get data "avg_days_to_pay" (VInt 45)) (VInt 45)) = Ok (n_avg_days n) /\
  py_int (py_or (get data "bounced_cheques_last_12m" (VInt 0)) (VInt 0))
    = Ok (n_bounces n) /\
  rating_text data = Ok (n_rating n) /\
  py_float (py_or (get data "years_in_business" (VFloat 0.0)) (VFloat 0.0))
    = Ok (n_years n) /\
  str_lower (py_or (get data "industry_risk" (VStr "medium")) (VStr "medium"))
    = Ok (n_industry_risk n) /\
  py_float (py_or (get data "top_5_customer_share" (VFloat 0.0)) (VFloat 0.0))
    = Ok (n_top5_share n).

(** The outcome of a conversion without its value. *)
Definition outcome {A} (r : result A) : result unit :=
  match r with
  | Ok _ => Ok tt
  | Raise e => Raise e
  end.

(** The conversions of each block, in the order the source runs them
    (lines 61-65, 131-132, 208, 219-221). *)
Definition financial_conversions `{B : Builtins} (data : gmap string value)
    : list (result unit) :=
  [ outcome (py_float (get data "net_profit_margin" (VFloat 0.0)));
    outcome (py_float (get data "current_ratio" (VFloat 0.0)));
    outcome (py_float (get data "debt_to_equity" (VFloat 0.0)));
    outcome (py_float (get data "banking_limit_utilisation" (VFloat 0.0)));
    outcome (trend_of data) ].

Definition payment_conversions `{B : Builtins} (data : gmap string value)
    : list (result unit) :=
  [ outcome (py_int (py_or (get data "avg_days_to_pay" (VInt 45)) (VInt 45)));
    outcome (py_int (py_or (get data "bounced_cheques_last_12m" (VInt 0)) (VInt 0))) ].

Definition external_conversions `{B : Builtins} (data : gmap string value)
    : list (result unit) :=
  [ outcome (rating_text data) ].

Definition stability_conversions `{B : Builtins} (data : gmap string value)
    : list (result unit) :=
  [ outcome (py_float (py_or (get data "years_in_business" (VFloat 0.0)) (VFloat 0.0)));
    outcome (str_lower (py_or (get data "industry_risk" (VStr "medium")) (VStr "medium")));
    outcome (py_float (py_or (get data "top_5_customer_share" (VFloat 0.0)) (VFloat 0.0))) ].

Definition conversions `{B : Builtins} (data : gmap string value) : list (result unit) :=
  financial_conversions data ++ payment_conversions data
    ++ external_conversions data ++ stability_conversions data.

(** The exception of the first conversion that raises, if any. *)
Fixpoint first_error (l : list (result unit)) : option exn :=
  match l with
  | [] => None
  | Ok _ :: l' => first_error l'
  | Raise e :: _ => Some e
  end.

(** The four category scores as the source computes them from the
    converted numbers and texts and the remaining fields. *)
Definition financial_formula (n : numbers) : Z :=
  _clamp (value_of (score_npm (n_npm n)) + value_of (score_current_ratio (n_curr_ratio n))
          + value_of (score_d2e (n_d2e n)) + value_of (score_bank (n_bank_util n))
          + value_of (score_trend (n_trend n))) 0 40.

Definition payment_formula (data : gmap string value) (n : numbers) : Z :=
  _clamp (value_of (score_days (n_avg_days n)) + value_of (score_bounce (n_bounces n))
          + (if truthy (get data "past_default_flag" (VBool false)) then -5 else 0)) 0 30.

Definition external_formula `{B : Builtins} (data : gmap string value) : Z :=
  _clamp (value_of (score_gst (get data "gst_filing_timely" VNone))
          + value_of (score_lit (get data "active_litigation" VNone))
          + value_of (score_rating (get data "credit_rating" VNone))) 0 15.

Definition stability_formula (data : gmap string value) (n : numbers) : Z :=
  _clamp (value_of (score_years (n_years n))
          + value_of (score_industry (n_industry_risk n))
          + value_of (score_conc (n_top5_share n))
          + (if truthy (get data "management_risk_flag" (VBool false)) then -3 else 0))
         0 15.

(** The fields whose null value is scored like the absent field. *)
Definition null_tolerant_fields : list string :=
  [ "avg_days_to_pay"; "bounced_cheques_last_12m"; "past_default_flag";
    "gst_filing_timely"; "active_litigation"; "credit_rating";
    "years_in_business"; "industry_risk"; "top_5_customer_share";
    "management_risk_flag" ].

(** A record on which every rule takes its lowest silent branch. *)
Definition silent_applicant : gmap string value :=
  list_to_map
    [("net_profit_margin", VFloat 0.5); ("current_ratio", VFloat 1.0);
     ("debt_to_equity", VInt 3); ("banking_limit_utilisation", VInt 85);
     ("turnover_trend", VStr "seasonal"); ("avg_days_to_pay", VInt 60);
     ("years_in_business", VInt 2); ("industry_risk", VStr "not sure");
     ("top_5_customer_share", VInt 60)].

(* ===================================================================== *)
(** ** The monad and the clamp *)
(* ===================================================================== *)

Lemma bind_Ok {A C} (m : M A) (k : A -> M C) rs c rs' :
  (m ≫= k) rs = Ok (c, rs') ->
  exists a rs1, m rs = Ok (a, rs1) /\ k a rs1 = Ok (c, rs').
Proof.
  unfold mbind, M_bind. destruct (m rs) as [[a rs1]|e]; [|discriminate].
  intros Hk. exists a, rs1. split; [reflexivity|exact Hk].
Qed.

Lemma ret_Ok {A} (a a' : A) rs rs' :
  (mret a : M A) rs = Ok (a', rs') -> a' = a /\ rs' = rs.
Proof. unfold mret, M_ret. intros H. injection H as -> ->. split; reflexivity. Qed.

Lemma call_Ok {A} (r : result A) (a : A) (rs rs' : list string) :
  call r rs = Ok (a, rs') -> r = Ok a /\ rs' = rs.
Proof. unfold call. destruct r; [|discriminate]. intros [= -> ->]. auto. Qed.

Lemma bind_run {A C} (m : M A) (k : A -> M C) (a : A) (rs rs1 : list string) :
  m rs = Ok (a, rs1) -> (m ≫= k) rs = k a rs1.
Proof. intros H. unfold mbind, M_bind. rewrite H. reflexivity. Qed.

Lemma bind_raise {A C} (m : M A) (k : A -> M C) (e : exn) (rs : list string) :
  m rs = Raise e -> (m ≫= k) rs = Raise e.
Proof. intros H. unfold mbind, M_bind. rewrite H. reflexivity. Qed.

Lemma clamp_range x lo hi : lo <= hi -> lo <= _clamp x lo hi <= hi.
Proof. unfold _clamp. lia. Qed.

(** Split a successful run of [x ← m; k] into its two halves, repeatedly. *)
Ltac split_binds H :=
  repeat
    (let a := fresh "a" in
     let rs := fresh "rs" in
     let Hm := fresh "Hm" in
     apply bind_Ok in H as (a & rs & Hm & H)).

(* ===================================================================== *)
(** ** Category scores stay under their ceilings *)
(* ===================================================================== *)

Section Ranges.
Context {B : Builtins}.

Lemma financial_strength_range data rs x rs' :
  financial_strength_of data rs = Ok (x, rs') -> 0 <= x <= 40.
Proof.
  unfold financial_strength_of. intros H. split_binds H.
  apply ret_Ok in H as [-> _]. apply clamp_range. lia.
Qed.

Lemma payment_behaviour_range data rs x rs' :
  payment_behaviour_of data rs = Ok (x, rs') -> 0 <= x <= 30.
Proof.
  unfold payment_behaviour_of. intros H. split_binds H.
  apply ret_Ok in H as [-> _]. apply clamp_range. lia.
Qed.

Lemma external_checks_range data rs x rs' :
  external_checks_of data rs = Ok (x, rs') -> 0 <= x <= 15.
Proof.
  unfold external_checks_of. intros H. split_binds H.
  apply ret_Ok in H as [-> _]. apply clamp_range. lia.
Qed.

Lemma business_stability_range data rs x rs' :
  business_stability_of data rs = Ok (x, rs') -> 0 <= x <= 15.
Proof.
  unfold business_stability_of. intros H. split_binds H.
  apply ret_Ok in H as [-> _]. apply clamp_range. lia.
Qed.

(** A successful evaluation ran the four category blocks in order, each on
    the reasons left by the one before, and assembled the record from them. *)
Lemma evaluate_customer_Ok data r :
  evaluate_customer data = Ok r ->
  exists fs pb ec bs rs1 rs2 rs3 rs4,
    financial_strength_of data [] = Ok (fs, rs1) /\
    payment_behaviour_of data rs1 = Ok (pb, rs2) /\
    external_checks_of data rs2 = Ok (ec, rs3) /\
    business_stability_of data rs3 = Ok (bs, rs4) /\
    total_score r = _clamp (fs + pb + ec + bs) 0 100 /\
    risk_band r = band_of (total_score r) /\
    decision r = decision_of (risk_band r) /\
    category r "financial_strength" = Some fs /\
    category r "payment_behaviour" = Some pb /\
    category r "external_checks" = Some ec /\
    category r "business_stability" = Some bs /\
    reasons r = rs4.
Proof.
  unfold evaluate_customer.
  destruct (evaluate_body data []) as [[r' rs]|e] eqn:H; [|discriminate].
  intros [= ->]. unfold evaluate_body in H.
  apply bind_Ok in H as (fs & rs1 & Hfs & H).
  apply bind_Ok in H as (pb & rs2 & Hpb & H).
  apply bind_Ok in H as (ec & rs3 & Hec & H).
  apply bind_Ok in H as (bs & rs4 & Hbs & H).
  apply bind_Ok in H as (rs5 & rs6 & Hrd & H).
  unfold read_reasons in Hrd. injection Hrd as <- <-.
  apply ret_Ok in H as [-> _].
  exists fs, pb, ec, bs, rs1, rs2, rs3, rs4.
  unfold category, round1. cbn [total_score risk_band decision category_scores reasons].
  repeat split; try assumption; by simplify_map_eq.
Qed.

End Ranges.

(* ===================================================================== *)
(** ** Band and decision *)
(* ===================================================================== *)

Lemma band_of_thresholds t :
  (75 <= t -> band_of t = LOW) /\
  (50 <= t < 75 -> band_of t = MEDIUM) /\
  (t < 50 -> band_of t = HIGH).
Proof.
  unfold band_of.
  destruct (Z.leb_spec 75 t), (Z.leb_spec 50 t); repeat split; intros; (reflexivity || lia).
Qed.

(** C1. The classifier follows the documented thresholds on [total_score]:
    at least 75 gives LOW and APPROVE, from 50 up to (not including) 75 gives
    MEDIUM and CONDITIONAL_APPROVAL, below 50 gives HIGH and REJECT. Band and
    decision depend on [total_score] only: two input records that produce the
    same total receive the same band and the same decision. *)
Theorem C1_band_and_decision_by_thresholds `{B : Builtins}
    (data data' : gmap string value) (r r' : ScoreResult) :
  evaluate_customer data = Ok r ->
  evaluate_customer data' = Ok r' ->
  (75 <= total_score r -> risk_band r = LOW /\ decision r = APPROVE) /\
  (50 <= total_score r < 75 ->
     risk_band r = MEDIUM /\ decision r = CONDITIONAL_APPROVAL) /\
  (total_score r < 50 -> risk_band r = HIGH /\ decision r = REJECT) /\
  (total_score r = total_score r' ->
     risk_band r = risk_band r' /\ decision r = decision r').
Proof.
  intros H H'.
  apply evaluate_customer_Ok in H
    as (? & ? & ? & ? & ? & ? & ? & ? & _ & _ & _ & _ & _ & Hb & Hd & _).
  apply evaluate_customer_Ok in H'
    as (? & ? & ? & ? & ? & ? & ? & ? & _ & _ & _ & _ & _ & Hb' & Hd' & _).
  destruct (band_of_thresholds (total_score r)) as (Hlow & Hmed & Hhigh).
  repeat split.
  - rewrite Hb. auto.
  - rewrite Hd, Hb, Hlow by assumption. reflexivity.
  - rewrite Hb. auto.
  - rewrite Hd, Hb, Hmed by assumption. reflexivity.
  - rewrite Hb. auto.
  - rewrite Hd, Hb, Hhigh by assumption. reflexivity.
  - rewrite Hb, Hb'. congruence.
  - rewrite Hd, Hd', Hb, Hb'. congruence.
Qed.

(** The empty record and the record that only states the default payment
    delay are different inputs with the same total, 51. *)
Lemma C1_band_and_decision_by_thresholds_witness :
  exists r r',
    evaluate_customer (B := plain_numerals) ∅ = Ok r /\
    evaluate_customer (B := plain_numerals) {[ "avg_days_to_pay" := VInt 45 ]} = Ok r' /\
    total_score r = 51 /\ total_score r' = 51 /\
    risk_band r = MEDIUM /\ decision r = CONDITIONAL_APPROVAL /\
    risk_band r = risk_band r' /\ decision r = decision r'.
Proof.
  destruct (evaluate_customer (B := plain_numerals) ∅) as [r|e] eqn:H;
    [|vm_compute in H; discriminate].
  destruct (evaluate_customer (B := plain_numerals) {[ "avg_days_to_pay" := VInt 45 ]})
    as [r'|e] eqn:H'; [|vm_compute in H'; discriminate].
  exists r, r'.
  assert (Ht : total_score r = 51) by (vm_compute in H; injection H as <-; reflexivity).
  assert (Ht' : total_score r' = 51) by (vm_compute in H'; injection H' as <-; reflexivity).
  destruct (C1_band_and_decision_by_thresholds ∅ {[ "avg_days_to_pay" := VInt 45 ]} r r' H H')
    as (_ & Hmed & _ & Hsame).
  destruct (Hmed ltac:(lia)) as [Hb Hd].
  destruct (Hsame ltac:(lia)) as [Hb' Hd'].
  repeat split; assumption.
Defined.

(** C2. Whenever [evaluate_customer] returns, each published category score
    lies within its ceiling range (financial_strength in [0,40],
    payment_behaviour in [0,30], external_checks in [0,15],
    business_stability in [0,15]) and [total_score] lies in [0,100]. *)
Theorem C2_scores_within_ceilings `{B : Builtins}
    (data : gmap string value) (r : ScoreResult) :
  evaluate_customer data = Ok r ->
  (exists fs, category r "financial_strength" = Some fs /\ 0 <= fs <= 40) /\
  (exists pb, category r "payment_behaviour" = Some pb /\ 0 <= pb <= 30) /\
  (exists ec, category r "external_checks" = Some ec /\ 0 <= ec <= 15) /\
  (exists bs, category r "business_stability" = Some bs /\ 0 <= bs <= 15) /\
  0 <= total_score r <= 100.
Proof.
  intros H.
  apply evaluate_customer_Ok in H
    as (fs & pb & ec & bs & rs1 & rs2 & rs3 & rs4 &
        Hfs & Hpb & Hec & Hbs & Ht & _ & _ & Cfs & Cpb & Cec & Cbs & _).
  apply financial_strength_range in Hfs.
  apply payment_behaviour_range in Hpb.
  apply external_checks_range in Hec.
  apply business_stability_range in Hbs.
  repeat split; eauto.
  - rewrite Ht. apply clamp_range. lia.
  - rewrite Ht. apply clamp_range. lia.
Qed.

Lemma C2_scores_within_ceilings_witness :
  exists r,
    evaluate_customer (B := plain_numerals) weak_applicant = Ok r /\
    (exists fs, category r "financial_strength" = Some fs /\ 0 <= fs <= 40) /\
    (exists pb, category r "payment_behaviour" = Some pb /\ 0 <= pb <= 30) /\
    (exists ec, category r "external_checks" = Some ec /\ 0 <= ec <= 15) /\
    (exists bs, category r "business_stability" = Some bs /\ 0 <= bs <= 15) /\
    0 <= total_score r <= 100.
Proof.
  destruct (evaluate_customer (B := plain_numerals) weak_applicant) as [r|e] eqn:H;
    [|vm_compute in H; discriminate].
  exists r. split; [reflexivity|].
  exact (C2_scores_within_ceilings weak_applicant r H).
Defined.

(* ===================================================================== *)
(** ** Days to pay *)
(* ===================================================================== *)

(** The days-to-pay rule always yields a score, and a longer delay never
    yields a higher one. *)
Lemma score_days_antitone (d d' : Z) (rs rs' : list string) :
  d <= d' ->
  exists s s' rs1 rs1',
    score_days d rs = Ok (s, rs1) /\ score_days d' rs' = Ok (s', rs1') /\ s' <= s.
Proof.
  intros Hle. unfold score_days.
  destruct (Z.leb_spec d 30), (Z.leb_spec d 45), (Z.leb_spec d 60), (Z.leb_spec d 90);
    try lia;
    destruct (Z.leb_spec d' 30), (Z.leb_spec d' 45), (Z.leb_spec d' 60), (Z.leb_spec d' 90);
    try lia;
    do 4 eexists; (split; [reflexivity|split; [reflexivity|lia]]).
Qed.

Lemma avg_days_of_int `{B : Builtins} (data : gmap string value) (d : Z) :
  avg_days_of (<["avg_days_to_pay" := VInt d]> data) = Ok (if d =? 0 then 45 else d).
Proof.
  unfold avg_days_of, get. rewrite lookup_insert_eq.
  unfold py_or, truthy. destruct (d =? 0); reflexivity.
Qed.

(** Away from 0 the sub-score of the field is antitone in the delay. *)
Lemma days_subscore_antitone_nonzero `{B : Builtins}
    (data : gmap string value) (d d' : Z) (rs : list string) :
  d <> 0 -> d' <> 0 -> d <= d' ->
  exists s s' rs1 rs1',
    days_subscore (<["avg_days_to_pay" := VInt d]> data) rs = Ok (s, rs1) /\
    days_subscore (<["avg_days_to_pay" := VInt d']> data) rs = Ok (s', rs1') /\
    s' <= s.
Proof.
  intros Hd Hd' Hle. unfold days_subscore. rewrite !avg_days_of_int.
  destruct (Z.eqb_spec d 0); [contradiction|].
  destruct (Z.eqb_spec d' 0); [contradiction|].
  exact (score_days_antitone d d' rs rs Hle).
Qed.

(** C3. Improving [avg_days_to_pay] from 1 day to 0 days, all other fields
    fixed, lowers the days-to-pay sub-score from 10 to 8: the value 0 is
    falsy, so [... or 45] replaces it by the default 45. In the whole
    evaluation [payment_behaviour] drops from 20 to 18. *)
Theorem C3_zero_days_scored_as_default `{B : Builtins}
    (data : gmap string value) (rs : list string) :
  days_subscore (<["avg_days_to_pay" := VInt 0]> data) rs = Ok (8, rs) /\
  days_subscore (<["avg_days_to_pay" := VInt 1]> data) rs = Ok (10, rs) /\
  (exists r0 r1,
     evaluate_customer {[ "avg_days_to_pay" := VInt 0 ]} = Ok r0 /\
     evaluate_customer {[ "avg_days_to_pay" := VInt 1 ]} = Ok r1 /\
     category r0 "payment_behaviour" = Some 18 /\
     category r1 "payment_behaviour" = Some 20).
Proof.
  split; [|split].
  - unfold days_subscore. rewrite avg_days_of_int. reflexivity.
  - unfold days_subscore. rewrite avg_days_of_int. reflexivity.
  - do 2 eexists. repeat split; vm_compute; reflexivity.
Qed.

(* ===================================================================== *)
(** ** Null values of the financial-strength numbers *)
(* ===================================================================== *)

(** The sibling conversions of the business-stability block guard
    [float(..)] with [... or 0.0]: there a null is scored as the default. *)
Lemma stability_null_defaults `{B : Builtins} :
  evaluate_customer {[ "years_in_business" := VNone ]} = evaluate_customer ∅ /\
  evaluate_customer {[ "top_5_customer_share" := VNone ]} = evaluate_customer ∅.
Proof. split; vm_compute; reflexivity. Qed.

(** A record that holds [None] in one of the four financial-strength numbers
    is never scored: no [... or 0.0] guards [float(..)] on lines 61-64, as it
    does for [years_in_business] and [top_5_customer_share]. *)
Lemma financial_null_raises `{B : Builtins} (data : gmap string value) (f : string) :
  f ∈ financial_numeric_fields ->
  data !! f = Some VNone ->
  exists e, evaluate_customer data = Raise e.
Proof.
  intros Hf Hnull.
  assert (Hfs : forall rs, exists e, financial_strength_of data rs = Raise e).
  { intros rs. unfold financial_strength_of, financial_numeric_fields in *.
    unfold mbind at 1, M_bind at 1.
    destruct (call (py_float (get data "net_profit_margin" (VFloat 0))) rs)
      as [[npm rs1]|e] eqn:E1; [|eauto].
    unfold mbind at 1, M_bind at 1.
    destruct (call (py_float (get data "current_ratio" (VFloat 0))) rs1)
      as [[cr rs2]|e] eqn:E2; [|eauto].
    unfold mbind at 1, M_bind at 1.
    destruct (call (py_float (get data "debt_to_equity" (VFloat 0))) rs2)
      as [[d2e rs3]|e] eqn:E3; [|eauto].
    unfold mbind at 1, M_bind at 1.
    destruct (call (py_float (get data "banking_limit_utilisation" (VFloat 0))) rs3)
      as [[bu rs4]|e] eqn:E4; [|eauto].
    exfalso. unfold get in *.
    repeat (apply elem_of_cons in Hf as [->|Hf];
            [rewrite Hnull in *; discriminate|]).
    by apply elem_of_nil in Hf. }
  destruct (Hfs []) as [e He]. exists e.
  unfold evaluate_customer, evaluate_body.
  unfold mbind at 1, M_bind at 1. rewrite He. reflexivity.
Qed.

(** C4. A null net_profit_margin, current_ratio, debt_to_equity or
    banking_limit_utilisation makes [evaluate_customer] raise [TypeError]
    (from [float(None)]), while the record that omits the field is scored
    with the default 0.0 (total 51). *)
Theorem C4_null_financial_number_raises `{B : Builtins} :
  evaluate_customer {[ "net_profit_margin" := VNone ]} = Raise TypeError /\
  evaluate_customer {[ "current_ratio" := VNone ]} = Raise TypeError /\
  evaluate_customer {[ "debt_to_equity" := VNone ]} = Raise TypeError /\
  evaluate_customer {[ "banking_limit_utilisation" := VNone ]} = Raise TypeError /\
  (exists r, evaluate_customer ∅ = Ok r /\ total_score r = 51).
Proof.
  repeat split; try (vm_compute; reflexivity).
  eexists. split; vm_compute; reflexivity.
Qed.

(* ===================================================================== *)
(** ** Turnover trend *)
(* ===================================================================== *)

(** A trend text outside the three recognised words scores 3, silently. *)
Lemma score_trend_other (trend : string) (rs : list string) :
  trend <> "improving" -> trend <> "stable" -> trend <> "declining" ->
  score_trend trend rs = Ok (3, rs).
Proof.
  intros H1 H2 H3. unfold score_trend.
  destruct (String.eqb_spec trend "improving"); [contradiction|].
  destruct (String.eqb_spec trend "stable"); [contradiction|].
  destruct (String.eqb_spec trend "declining"); [contradiction|].
  reflexivity.
Qed.

(** A string that is not one of the three trends after lower-casing scores
    3 with no reason: this part of the claim holds. *)
Lemma unrecognised_trend_scores_3 `{B : Builtins}
    (data : gmap string value) (s : string) (rs : list string) :
  lower s <> "improving" -> lower s <> "stable" -> lower s <> "declining" ->
  trend_subscore (<["turnover_trend" := VStr s]> data) rs = Ok (3, rs).
Proof.
  intros H1 H2 H3. unfold trend_subscore, trend_of, get. rewrite lookup_insert_eq.
  unfold py_or, truthy, str_lower, py_str.
  destruct (String.eqb_spec s ""); subst; simpl;
    (erewrite bind_run by reflexivity); by apply score_trend_other.
Qed.

(** C5. A null turnover_trend is not given the default "stable": the guard
    on line 65 is [... or ""], so the null becomes the empty text, which no
    branch recognises, and scores 3, while the absent field and an explicit
    "stable" score 4 (financial_strength 18 against 19 on the otherwise empty
    record). The sibling guard of industry_risk on line 220 repeats the
    default, [... or "medium"], and there a null is scored like the absent
    field. *)
Theorem C5_null_trend_not_defaulted `{B : Builtins}
    (data : gmap string value) (rs : list string) :
  trend_subscore (<["turnover_trend" := VNone]> data) rs = Ok (3, rs) /\
  trend_subscore (delete "turnover_trend" data) rs = Ok (4, rs) /\
  trend_subscore (<["turnover_trend" := VStr "stable"]> data) rs = Ok (4, rs) /\
  (exists r_null r_absent,
     evaluate_customer {[ "turnover_trend" := VNone ]} = Ok r_null /\
     evaluate_customer ∅ = Ok r_absent /\
     category r_null "financial_strength" = Some 18 /\
     category r_absent "financial_strength" = Some 19) /\
  evaluate_customer {[ "industry_risk" := VNone ]} = evaluate_customer ∅.
Proof.
  split; [|split; [|split; [|split]]].
  - unfold trend_subscore, trend_of, get. rewrite lookup_insert_eq. reflexivity.
  - unfold trend_subscore, trend_of, get. rewrite lookup_delete_eq. reflexivity.
  - unfold trend_subscore, trend_of, get. rewrite lookup_insert_eq. reflexivity.
  - do 2 eexists. repeat split; vm_compute; reflexivity.
  - vm_compute. reflexivity.
Qed.

(* ===================================================================== *)
(** ** Scenarios *)
(* ===================================================================== *)

(** C6. For the empty input record [evaluate_customer] returns
    financial_strength 19, payment_behaviour 18, external_checks 7,
    business_stability 7, total_score 51, risk band MEDIUM and decision
    CONDITIONAL_APPROVAL. *)
Theorem C6_empty_record `{B : Builtins} :
  exists r,
    evaluate_customer ∅ = Ok r /\
    category r "financial_strength" = Some 19 /\
    category r "payment_behaviour" = Some 18 /\
    category r "external_checks" = Some 7 /\
    category r "business_stability" = Some 7 /\
    total_score r = 51 /\
    risk_band r = MEDIUM /\
    decision r = CONDITIONAL_APPROVAL.
Proof. eexists. repeat split; vm_compute; reflexivity. Qed.

(** The four reasons of the empty record. *)
Lemma empty_record_reasons `{B : Builtins} :
  reasons <$> (match evaluate_customer ∅ with Ok r => Some r | Raise _ => None end)
  = Some [ "Net profit margin is very low or negative.";
           "Current ratio below 1.0 indicates tight liquidity.";
           "Bank limit utilisation is low; could indicate underutilisation of facilities.";
           "Limited operating history." ].
Proof. vm_compute. reflexivity. Qed.

(** The strong applicant: both payment rules at their best give 10 + 10, so
    payment_behaviour is 20 and the total is 90, with no reason. *)
Lemma strong_applicant_outcome `{B : Builtins} :
  exists r,
    evaluate_customer strong_applicant = Ok r /\
    category r "financial_strength" = Some 40 /\
    category r "payment_behaviour" = Some 20 /\
    category r "external_checks" = Some 15 /\
    category r "business_stability" = Some 15 /\
    total_score r = 90 /\
    risk_band r = LOW /\
    decision r = APPROVE /\
    reasons r = [].
Proof. eexists. repeat split; vm_compute; reflexivity. Qed.

(** C7 fails on the number of reasons: the weak applicant triggers fifteen
    negative branches, not ten. *)
Lemma C7_weak_applicant_reason_count_counterexample :
  exists r,
    evaluate_customer (B := plain_numerals) weak_applicant = Ok r /\
    length (reasons r) = 15%nat /\
    length (reasons r) <> 10%nat.
Proof. eexists. repeat split; [vm_compute; reflexivity .. | vm_compute; discriminate]. Qed.

(** C7, amended. For the weak applicant [evaluate_customer] returns
    financial_strength 4, payment_behaviour 0 (raw sum -5, clamped),
    external_checks 2, business_stability 0 (raw sum -2, clamped),
    total_score 6, risk band HIGH, decision REJECT, and the reasons list is
    the fifteen negative-branch strings this input triggers, in fixed
    category order: five financial, three payment, three external, four
    stability. *)
Theorem C7_weak_applicant `{B : Builtins} :
  exists r,
    evaluate_customer weak_applicant = Ok r /\
    category r "financial_strength" = Some 4 /\
    category r "payment_behaviour" = Some 0 /\
    category r "external_checks" = Some 2 /\
    category r "business_stability" = Some 0 /\
    total_score r = 6 /\
    risk_band r = HIGH /\
    decision r = REJECT /\
    reasons r = weak_applicant_reasons /\
    length (reasons r) = 15%nat.
Proof. eexists. repeat split; vm_compute; reflexivity. Qed.

(** The raw sums of the two clamped categories of the weak applicant. *)
Lemma weak_applicant_raw_sums (rs : list string) :
  (exists rs1 rs2 rs3,
     score_days 120 rs = Ok (0, rs1) /\ score_bounce 7 rs1 = Ok (0, rs2) /\
     score_default_adj true rs2 = Ok (-5, rs3) /\ _clamp (0 + 0 + -5) 0 30 = 0) /\
  (exists rs1 rs2 rs3 rs4,
     score_years 1 rs = Ok (0, rs1) /\ score_industry "high" rs1 = Ok (1, rs2) /\
     score_conc 90 rs2 = Ok (0, rs3) /\ mgmt_penalty true (0 + 1 + 0) rs3 = Ok (-2, rs4) /\
     _clamp (-2) 0 15 = 0).
Proof. split; repeat eexists. Qed.

(** C8. At the boundary values the inclusive branch applies: current_ratio
    exactly 1.5 scores 8; banking_limit_utilisation exactly 40 and exactly 80
    both score 8; avg_days_to_pay exactly 90 scores 2 (with the reason of
    that band), not the 0 of the else branch. *)
Theorem C8_boundary_ties `{B : Builtins} (rs : list string) :
  current_ratio_subscore {[ "current_ratio" := VFloat 1.5 ]} rs = Ok (8, rs) /\
  bank_subscore {[ "banking_limit_utilisation" := VInt 40 ]} rs = Ok (8, rs) /\
  bank_subscore {[ "banking_limit_utilisation" := VInt 80 ]} rs = Ok (8, rs) /\
  bank_subscore {[ "banking_limit_utilisation" := VFloat 40 ]} rs = Ok (8, rs) /\
  bank_subscore {[ "banking_limit_utilisation" := VFloat 80 ]} rs = Ok (8, rs) /\
  days_subscore {[ "avg_days_to_pay" := VInt 90 ]} rs
    = Ok (2, rs ++ ["Average payment days are on the higher side."]).
Proof. repeat apply conj; reflexivity. Qed.

(** Just past each boundary the next branch applies. *)
Lemma past_the_boundaries `{B : Builtins} (rs : list string) :
  current_ratio_subscore {[ "current_ratio" := VFloat 1.49 ]} rs = Ok (6, rs) /\
  bank_subscore {[ "banking_limit_utilisation" := VFloat 80.5 ]} rs = Ok (5, rs) /\
  days_subscore {[ "avg_days_to_pay" := VInt 91 ]} rs
    = Ok (0, rs ++ ["Very high average payment days."]).
Proof. repeat apply conj; reflexivity. Qed.

(* ===================================================================== *)
(** ** Determinism *)
(* ===================================================================== *)

Lemma get_agree (d1 d2 : gmap string value) (key : string) (dflt : value) :
  d1 !! key = d2 !! key -> get d1 key dflt = get d2 key dflt.
Proof. unfold get. intros ->. reflexivity. Qed.

(** The outcome depends on nothing but the fifteen fields the function
    reads: no other key, no earlier call, no state kept between calls. *)
Lemma evaluate_customer_reads_fields `{B : Builtins} (d1 d2 : gmap string value) :
  (forall key, key ∈ fields -> d1 !! key = d2 !! key) ->
  evaluate_customer d1 = evaluate_customer d2.
Proof.
  intros H.
  assert (Hget : forall key dflt, key ∈ fields -> get d1 key dflt = get d2 key dflt)
    by (intros key dflt Hk; apply get_agree, H, Hk).
  unfold evaluate_customer, evaluate_body, financial_strength_of, trend_of,
    payment_behaviour_of, avg_days_of, external_checks_of, business_stability_of.
  rewrite !(Hget "net_profit_margin"), !(Hget "current_ratio"),
    !(Hget "debt_to_equity"), !(Hget "banking_limit_utilisation"),
    !(Hget "turnover_trend"), !(Hget "avg_days_to_pay"),
    !(Hget "bounced_cheques_last_12m"), !(Hget "past_default_flag"),
    !(Hget "gst_filing_timely"), !(Hget "active_litigation"),
    !(Hget "credit_rating"), !(Hget "years_in_business"),
    !(Hget "industry_risk"), !(Hget "top_5_customer_share"),
    !(Hget "management_risk_flag")
    by (unfold fields; set_solver).
  reflexivity.
Qed.


(** The record the body returns carries the reasons collected. *)
Lemma evaluate_body_reasons `{B : Builtins} data rs r rs' :
  evaluate_body data rs = Ok (r, rs') -> reasons r = rs'.
Proof.
  unfold evaluate_body. intros H.
  apply bind_Ok in H as (fs & rs1 & _ & H).
  apply bind_Ok in H as (pb & rs2 & _ & H).
  apply bind_Ok in H as (ec & rs3 & _ & H).
  apply bind_Ok in H as (bs & rs4 & _ & H).
  apply bind_Ok in H as (rs5 & rs6 & Hrd & H).
  unfold read_reasons in Hrd. injection Hrd as <- <-.
  apply ret_Ok in H as [-> ->]. reflexivity.
Qed.

Lemma contents_new_list (st : store) :
  contents (st ++ [[]]) (length st) = [].
Proof. unfold contents. rewrite lookup_app_r, Nat.sub_diag by lia. reflexivity. Qed.

Lemma store_new_list (st : store) (l : list string) :
  <[length st := l]> (st ++ [[]]) = st ++ [l].
Proof. induction st as [|l0 st IH]; simpl; [reflexivity|]. by rewrite IH. Qed.


Lemma contents_app_old (st : store) (l : list string) (addr : nat) :
  (addr < length st)%nat -> contents (st ++ [l]) addr = contents st addr.
Proof. intros H. unfold contents. by rewrite lookup_app_l. Qed.

(** A call in any store: the body runs on a new, empty list, so the call
    computes what [evaluate_customer] computes, returns the new list as
    [reasons] and leaves every older object as it was. *)
Lemma evaluate_call_spec `{B : Builtins} (data : gmap string value) (st : store) :
  evaluate_call data st
  = match evaluate_customer data with
    | Ok r =>
        Ok ({| obj_total_score := total_score r;
               obj_risk_band := risk_band r;
               obj_decision := decision r;
               obj_category_scores := category_scores r;
               obj_reasons := length st |}, st ++ [reasons r])
    | Raise e => Raise e
    end.
Proof.
  unfold evaluate_call, new_list, on_list, evaluate_customer.
  rewrite contents_new_list.
  destruct (evaluate_body data []) as [[r l]|e] eqn:H; [|reflexivity].
  rewrite (evaluate_body_reasons data [] r l H), store_new_list. reflexivity.
Qed.



(** The two results of two calls do not share their [reasons] list, and
    the later call leaves the earlier result as the caller has it: changes
    the caller made to the first list do not reach the second result. *)
Lemma calls_share_no_list `{B : Builtins}
    (data data' : gmap string value) (st st1 st' st2 : store)
    (o1 o2 : ScoreResultObject) :
  evaluate_call data st = Ok (o1, st1) ->
  (length st1 <= length st')%nat ->
  evaluate_call data' st' = Ok (o2, st2) ->
  obj_reasons o1 <> obj_reasons o2 /\
  read st2 o1 = read st' o1.
Proof.
  rewrite !evaluate_call_spec.
  destruct (evaluate_customer data) as [r|e]; [|discriminate].
  destruct (evaluate_customer data') as [r'|e]; [|discriminate].
  intros [= <- <-] Hlen [= <- <-]. rewrite length_app in Hlen. simpl in Hlen.
  cbn [obj_reasons]. split; [lia|].
  unfold read. cbn [obj_reasons]. f_equal. apply contents_app_old. lia.
Qed.

(** Two calls on the weak applicant; in between the caller appends a note
    to the reasons of the first result. *)
Lemma calls_share_no_list_example :
  exists o1 st1 o2 st2,
    evaluate_call (B := plain_numerals) weak_applicant [] = Ok (o1, st1) /\
    evaluate_call (B := plain_numerals) weak_applicant
      (<[obj_reasons o1 := contents st1 (obj_reasons o1) ++ ["seen"]]> st1)
      = Ok (o2, st2) /\
    reasons (read st2 o2) = weak_applicant_reasons /\
    reasons (read st2 o1) = weak_applicant_reasons ++ ["seen"].
Proof. do 4 eexists. repeat split; vm_compute; reflexivity. Qed.

(* ===================================================================== *)
(** ** Tri-state fields compared by identity *)
(* ===================================================================== *)

(** C10. A gst_filing_timely or active_litigation value that is neither the
    boolean True nor the boolean False (the integer 1, the string "yes", the
    integer 0, ...) is scored as unknown: sub-score 3 and no reason, because
    the value is compared by identity with True and False. *)
Theorem C10_non_boolean_scored_unknown
    (data : gmap string value) (v : value) (rs : list string) :
  v <> VBool true -> v <> VBool false ->
  (data !! "gst_filing_timely" = Some v -> gst_subscore data rs = Ok (3, rs)) /\
  (data !! "active_litigation" = Some v -> lit_subscore data rs = Ok (3, rs)).
Proof.
  intros Ht Hf.
  assert (is_True v = false) as HT by (destruct v as [|[]| | |]; simpl; congruence).
  assert (is_False v = false) as HF by (destruct v as [|[]| | |]; simpl; congruence).
  split; intros Hv.
  - unfold gst_subscore, get, score_gst. rewrite Hv, HT, HF. reflexivity.
  - unfold lit_subscore, get, score_lit. rewrite Hv, HT, HF. reflexivity.
Qed.

Lemma C10_non_boolean_scored_unknown_witness :
  gst_subscore {[ "gst_filing_timely" := VInt 1 ]} [] = Ok (3, []) /\
  lit_subscore {[ "active_litigation" := VStr "yes" ]} [] = Ok (3, []) /\
  gst_subscore {[ "gst_filing_timely" := VInt 0 ]} [] = Ok (3, []).
Proof.
  split; [|split].
  - apply (C10_non_boolean_scored_unknown
             {[ "gst_filing_timely" := VInt 1 ]} (VInt 1) []);
      [discriminate | discriminate | reflexivity].
  - apply (C10_non_boolean_scored_unknown
             {[ "active_litigation" := VStr "yes" ]} (VStr "yes") []);
      [discriminate | discriminate | reflexivity].
  - apply (C10_non_boolean_scored_unknown
             {[ "gst_filing_timely" := VInt 0 ]} (VInt 0) []);
      [discriminate | discriminate | reflexivity].
Defined.

(** In the whole evaluation such a value leaves external_checks where the
    absent field leaves it. *)
Lemma non_boolean_gst_as_absent `{B : Builtins} :
  evaluate_customer {[ "gst_filing_timely" := VInt 1 ]} = evaluate_customer ∅ /\
  evaluate_customer {[ "active_litigation" := VStr "yes" ]} = evaluate_customer ∅ /\
  evaluate_customer {[ "gst_filing_timely" := VInt 0 ]} = evaluate_customer ∅.
Proof. repeat split; vm_compute; reflexivity. Qed.

(* ===================================================================== *)
(** ** The rules only append *)
(* ===================================================================== *)

Lemma appender_ret {A} (a : A) : appender (mret a : M A).
Proof. intros rs. unfold mret, M_ret. by rewrite app_nil_r. Qed.

Lemma appender_append (msg : string) : appender (append msg).
Proof. intros rs. reflexivity. Qed.

Lemma appender_call {A} (r : result A) : appender (call r).
Proof. intros rs. unfold call. destruct r; [by rewrite app_nil_r | reflexivity]. Qed.

Lemma appender_bind {A C} (m : M A) (k : A -> M C) :
  appender m -> (forall a, appender (k a)) -> appender (m ≫= k).
Proof.
  intros Hm Hk rs. unfold mbind, M_bind. rewrite (Hm rs).
  destruct (m []) as [[a l]|e]; [|reflexivity].
  rewrite (Hk a (rs ++ l)), (Hk a l).
  destruct (k a []) as [[c l']|e]; [|reflexivity].
  by rewrite app_assoc.
Qed.

(** Running an appender on top of collected messages. *)
Lemma appender_run {A} (m : M A) (a : A) (l rs : list string) :
  appender m -> m [] = Ok (a, l) -> m rs = Ok (a, rs ++ l).
Proof. intros Hm H. rewrite (Hm rs), H. reflexivity. Qed.

Lemma appender_inv {A} (m : M A) (a : A) (rs rs' : list string) :
  appender m -> m rs = Ok (a, rs') -> exists l, m [] = Ok (a, l) /\ rs' = rs ++ l.
Proof.
  intros Hm H. rewrite (Hm rs) in H.
  destruct (m []) as [[a0 l]|e]; [|discriminate].
  injection H as -> <-. eauto.
Qed.

Lemma rule_spec_inv (m : M Z) lo hi quiet msgs n rs s rs' :
  rule_spec m lo hi quiet msgs n ->
  m rs = Ok (s, rs') ->
  exists l, rs' = rs ++ l /\ rule_ok lo hi quiet msgs n s l.
Proof.
  intros [Hm (s0 & l0 & H0 & Hok)] H.
  apply (appender_inv m s rs rs' Hm) in H as (l & H & ->).
  rewrite H0 in H. injection H as -> ->. eauto.
Qed.

Lemma rule_spec_total (m : M Z) lo hi quiet msgs n rs :
  rule_spec m lo hi quiet msgs n ->
  exists s l, m rs = Ok (s, rs ++ l) /\ rule_ok lo hi quiet msgs n s l.
Proof.
  intros [Hm (s & l & H0 & Hok)]. exists s, l. split; [|exact Hok].
  by apply appender_run.
Qed.

Lemma rule_sound_inv (m : M Z) lo hi quiet msgs n rs s rs' :
  rule_sound m lo hi quiet msgs n ->
  m rs = Ok (s, rs') ->
  exists l, rs' = rs ++ l /\ rule_ok lo hi quiet msgs n s l.
Proof.
  intros [Hm Hok] H.
  apply (appender_inv m s rs rs' Hm) in H as (l & H & ->). eauto.
Qed.

(** Prove that a rule only appends, branch by branch. *)
Ltac appender_tac :=
  repeat first
    [ apply appender_ret
    | apply appender_append
    | apply appender_call
    | apply appender_bind; [|intros ?]
    | match goal with
      | |- appender (if ?c then _ else _) => destruct c
      | |- appender (let _ := _ in _) => cbv zeta
      end ].

(** Settle [rule_ok] for the explicit outcome of one branch. *)
Ltac rule_ok_tac :=
  unfold rule_ok; split; [lia|]; split; [intros ?; (lia || discriminate)|];
  split; [repeat first [apply sublist_nil | apply sublist_skip | apply sublist_cons]
         | simpl; lia].

(** Prove the specification of a rule: every branch is tried. *)
Ltac rule_spec_tac :=
  split;
  [ appender_tac
  | repeat match goal with
      | |- context [if ?c then _ else _] => destruct c
      end;
    do 2 eexists; (split; [reflexivity | rule_ok_tac]) ].

Lemma score_npm_spec npm :
  rule_spec (score_npm npm) 0 10 2 ["Net profit margin is very low or negative."] 1.
Proof. unfold score_npm. rule_spec_tac. Qed.

Lemma score_current_ratio_spec curr_ratio :
  rule_spec (score_current_ratio curr_ratio) 1 8 4
    ["Current ratio below 1.0 indicates tight liquidity."] 1.
Proof. unfold score_current_ratio. rule_spec_tac. Qed.

Lemma score_d2e_spec d2e :
  rule_spec (score_d2e d2e) 0 8 3 ["Debt-to-equity is very high."] 1.
Proof. unfold score_d2e. rule_spec_tac. Qed.

Lemma score_bank_spec bank_util :
  rule_spec (score_bank bank_util) 2 8 5
    ["Bank limit utilisation is low; could indicate underutilisation of facilities.";
     "Bank limit utilisation consistently >90% indicates stress on working capital."] 1.
Proof. unfold score_bank. rule_spec_tac. Qed.

Lemma score_trend_spec trend :
  rule_spec (score_trend trend) 1 6 3 ["Turnover trend is declining."] 1.
Proof. unfold score_trend. rule_spec_tac. Qed.

Lemma score_days_spec avg_days :
  rule_spec (score_days avg_days) 0 10 5
    ["Average payment days are on the higher side.";
     "Very high average payment days."] 1.
Proof. unfold score_days. rule_spec_tac. Qed.

Lemma score_bounce_spec bounces :
  rule_spec (score_bounce bounces) 0 10 10
    ["Some cheque bounces in last 12 months.";
     "Multiple cheque bounces in last 12 months.";
     "Frequent cheque bounces in last 12 months."] 1.
Proof. unfold score_bounce. rule_spec_tac. Qed.

Lemma score_default_adj_spec past_default :
  rule_spec (score_default_adj past_default) (-5) 0 0
    ["History of default / write-off reported."] 1.
Proof. unfold score_default_adj. rule_spec_tac. Qed.

Lemma score_gst_spec v :
  rule_spec (score_gst v) 1 5 3 ["GST filing not timely."] 1.
Proof. unfold score_gst. rule_spec_tac. Qed.

Lemma score_lit_spec v :
  rule_spec (score_lit v) 1 5 3 ["Active litigation / legal disputes reported."] 1.
Proof. unfold score_lit. rule_spec_tac. Qed.

Lemma score_years_spec years :
  rule_spec (score_years years) 0 6 2 ["Limited operating history."] 1.
Proof. unfold score_years. rule_spec_tac. Qed.

Lemma score_industry_spec industry_risk :
  rule_spec (score_industry industry_risk) 1 5 2 ["High-risk industry."] 1.
Proof. unfold score_industry. rule_spec_tac. Qed.

Lemma score_conc_spec top5_share :
  rule_spec (score_conc top5_share) 0 4 3
    ["Moderate customer concentration.";
     "Very high dependence on few customers."] 1.
Proof. unfold score_conc. rule_spec_tac. Qed.

(** The rating table: only the codes B and C score 0. *)
Lemma rating_score_map_lookup (code : string) (z : Z) :
  rating_score_map !! code = Some z ->
  ((code = "B" \/ code = "C") /\ z = 0) \/
  (code <> "B" /\ code <> "C" /\ 1 <= z <= 5).
Proof.
  intros H. unfold rating_score_map in H.
  apply elem_of_list_to_map_2 in H.
  repeat (apply elem_of_cons in H as [[= -> ->]|H];
          [first [left; split; [auto|reflexivity]
                 |right; repeat split; (discriminate || lia)]|]).
  by apply elem_of_nil in H.
Qed.

Section RatingRule.
Context {B : Builtins}.

Lemma score_rating_appender v : appender (score_rating v).
Proof. unfold score_rating. appender_tac. Qed.

(** The rating rule on a falsy value: no conversion, score 1. *)
Lemma score_rating_falsy v rs :
  truthy v = false -> score_rating v rs = Ok (1, rs).
Proof. intros H. unfold score_rating. rewrite H. reflexivity. Qed.

(** The rating rule on a truthy value whose text cannot be produced. *)
Lemma score_rating_raises v e rs :
  truthy v = true -> str_upper v = Raise e -> score_rating v rs = Raise e.
Proof.
  intros H Hs. unfold score_rating. rewrite H.
  apply bind_raise. unfold call. rewrite Hs. reflexivity.
Qed.

(** The rating rule on the codes B and C, in any letter case. *)
Lemma score_rating_weak v code rs :
  truthy v = true -> str_upper v = Ok code -> code = "B" \/ code = "C" ->
  score_rating v rs = Ok (0, rs ++ ["Weak external rating (" +:+ code +:+ ")."]).
Proof.
  intros H Hs HBC. unfold score_rating. rewrite H.
  erewrite bind_run by (unfold call; rewrite Hs; reflexivity).
  destruct HBC as [-> | ->]; reflexivity.
Qed.

(** The rating rule on any other text: a silent score from 1 to 5. *)
Lemma score_rating_other v code rs :
  truthy v = true -> str_upper v = Ok code -> code <> "B" -> code <> "C" ->
  exists s, 1 <= s <= 5 /\ score_rating v rs = Ok (s, rs).
Proof.
  intros H Hs HB HC. unfold score_rating. rewrite H.
  erewrite bind_run by (unfold call; rewrite Hs; reflexivity).
  cbv zeta.
  destruct (String.eqb_spec code "B"); [contradiction|].
  destruct (String.eqb_spec code "C"); [contradiction|].
  simpl.
  destruct (rating_score_map !! code) as [z|] eqn:E.
  - apply rating_score_map_lookup in E as [[[?|?] _]|(_ & _ & Hz)]; try contradiction.
    exists z. split; [exact Hz|reflexivity].
  - exists 1. split; [lia|reflexivity].
Qed.

Lemma score_rating_sound v :
  rule_sound (score_rating v) 0 5 1
    ["Weak external rating (B)."; "Weak external rating (C)."] 1.
Proof.
  split; [apply score_rating_appender|]. intros s l H.
  destruct (truthy v) eqn:Ht.
  - destruct (str_upper v) as [code|e] eqn:Hs.
    + destruct (String.eqb_spec code "B") as [->|HB];
        [|destruct (String.eqb_spec code "C") as [->|HC]].
      * rewrite (score_rating_weak v "B" [] Ht Hs) in H by auto.
        injection H as <- <-. rule_ok_tac.
      * rewrite (score_rating_weak v "C" [] Ht Hs) in H by auto.
        injection H as <- <-. rule_ok_tac.
      * destruct (score_rating_other v code [] Ht Hs HB HC) as (s0 & Hs0 & H0).
        rewrite H0 in H. injection H as <- <-. rule_ok_tac.
    + rewrite (score_rating_raises v e [] Ht Hs) in H. discriminate.
  - rewrite (score_rating_falsy v [] Ht) in H. injection H as <- <-. rule_ok_tac.
Qed.

End RatingRule.

Lemma mgmt_penalty_appender mgmt_risk stability_raw :
  appender (mgmt_penalty mgmt_risk stability_raw).
Proof. unfold mgmt_penalty. appender_tac. Qed.

(** The penalty subtracts 3 from the running sum exactly when the flag is
    set, and then adds its message. *)
Lemma mgmt_penalty_inv mgmt_risk stability_raw rs y rs' :
  mgmt_penalty mgmt_risk stability_raw rs = Ok (y, rs') ->
  y = stability_raw + (if mgmt_risk then -3 else 0) /\
  rs' = rs ++ (if mgmt_risk
               then ["Concerns flagged on management integrity / governance."]
               else []).
Proof.
  unfold mgmt_penalty. destruct mgmt_risk; intros [= <- <-]; split;
    (lia || by rewrite ?app_nil_r).
Qed.

Lemma score_default_adj_inv past_default rs y rs' :
  score_default_adj past_default rs = Ok (y, rs') ->
  y = (if past_default then -5 else 0) /\
  rs' = rs ++ (if past_default
               then ["History of default / write-off reported."]
               else []).
Proof.
  unfold score_default_adj. destruct past_default; intros [= <- <-]; split;
    (reflexivity || by rewrite ?app_nil_r).
Qed.

(* ===================================================================== *)
(** ** What each category yields *)
(* ===================================================================== *)

Lemma rule_ok_add lo1 hi1 q1 ms1 n1 s1 l1 lo2 hi2 q2 ms2 n2 s2 l2 :
  rule_ok lo1 hi1 q1 ms1 n1 s1 l1 ->
  rule_ok lo2 hi2 q2 ms2 n2 s2 l2 ->
  rule_ok (lo1 + lo2) (hi1 + hi2) (q1 + q2) (ms1 ++ ms2) (n1 + n2)
    (s1 + s2) (l1 ++ l2).
Proof.
  intros (Hr1 & Hq1 & Hs1 & Hn1) (Hr2 & Hq2 & Hs2 & Hn2). repeat split.
  - lia.
  - lia.
  - intros [-> ->]%app_eq_nil. specialize (Hq1 eq_refl). specialize (Hq2 eq_refl). lia.
  - by apply sublist_app.
  - rewrite length_app. lia.
Qed.

Lemma rule_ok_clamp lo hi q ms n s l a b :
  rule_ok lo hi q ms n s l ->
  rule_ok (_clamp lo a b) (_clamp hi a b) (_clamp q a b) ms n (_clamp s a b) l.
Proof.
  intros (Hr & Hq & Hs & Hn). unfold _clamp. repeat split; try assumption; try lia.
  intros Hl. specialize (Hq Hl). lia.
Qed.

Lemma flag_rule_ok (flag : bool) (penalty : Z) (msg : string) :
  penalty <= 0 ->
  rule_ok penalty 0 0 [msg] 1
    (if flag then penalty else 0) (if flag then [msg] else []).
Proof.
  intros Hp. destruct flag; unfold rule_ok; repeat split; simpl;
    try lia; try discriminate; try reflexivity.
  apply sublist_nil_l.
Qed.

Section Categories.
Context {B : Builtins}.

(** The financial-strength block: its five rules, in order; the clamp to
    [0, 40] never changes their sum. *)
Lemma financial_strength_spec data rs x rs' :
  financial_strength_of data rs = Ok (x, rs') ->
  exists l, rs' = rs ++ l /\ rule_ok 4 40 17 financial_reasons 5 x l.
Proof.
  unfold financial_strength_of. intros H. split_binds H.
  apply ret_Ok in H as [-> ->].
  apply call_Ok in Hm as [_ ->]. apply call_Ok in Hm0 as [_ ->].
  apply call_Ok in Hm1 as [_ ->]. apply call_Ok in Hm2 as [_ ->].
  apply call_Ok in Hm3 as [_ ->].
  apply (rule_spec_inv _ _ _ _ _ _ _ _ _ (score_npm_spec _)) in Hm4 as (l1 & -> & R1).
  apply (rule_spec_inv _ _ _ _ _ _ _ _ _ (score_current_ratio_spec _)) in Hm5 as (l2 & -> & R2).
  apply (rule_spec_inv _ _ _ _ _ _ _ _ _ (score_d2e_spec _)) in Hm6 as (l3 & -> & R3).
  apply (rule_spec_inv _ _ _ _ _ _ _ _ _ (score_bank_spec _)) in Hm7 as (l4 & -> & R4).
  apply (rule_spec_inv _ _ _ _ _ _ _ _ _ (score_trend_spec _)) in Hm8 as (l5 & -> & R5).
  exists ((((l1 ++ l2) ++ l3) ++ l4) ++ l5). split; [by rewrite <- !app_assoc|].
  exact (rule_ok_clamp _ _ _ _ _ _ _ 0 40
           (rule_ok_add _ _ _ _ _ _ _ _ _ _ _ _ _ _
              (rule_ok_add _ _ _ _ _ _ _ _ _ _ _ _ _ _
                 (rule_ok_add _ _ _ _ _ _ _ _ _ _ _ _ _ _
                    (rule_ok_add _ _ _ _ _ _ _ _ _ _ _ _ _ _ R1 R2) R3) R4) R5)).
Qed.

(** The payment block: two rules, then the default penalty read from
    [past_default_flag], then the clamp to [0, 30]. *)
Lemma payment_behaviour_parts data rs x rs' :
  payment_behaviour_of data rs = Ok (x, rs') ->
  let past_default := truthy (get data "past_default_flag" (VBool false)) in
  exists s_days s_bounce l_days l_bounce,
    rule_ok 0 10 5
      ["Average payment days are on the higher side.";
       "Very high average payment days."] 1 s_days l_days /\
    rule_ok 0 10 10
      ["Some cheque bounces in last 12 months.";
       "Multiple cheque bounces in last 12 months.";
       "Frequent cheque bounces in last 12 months."] 1 s_bounce l_bounce /\
    x = _clamp (s_days + s_bounce + (if past_default then -5 else 0)) 0 30 /\
    rs' = rs ++ (l_days ++ l_bounce)
             ++ (if past_default
                 then ["History of default / write-off reported."] else []).
Proof.
  unfold payment_behaviour_of. intros H. split_binds H.
  apply ret_Ok in H as [-> ->].
  apply call_Ok in Hm as [_ ->]. apply call_Ok in Hm0 as [_ ->].
  apply (rule_spec_inv _ _ _ _ _ _ _ _ _ (score_days_spec _)) in Hm1 as (l1 & -> & R1).
  apply (rule_spec_inv _ _ _ _ _ _ _ _ _ (score_bounce_spec _)) in Hm2 as (l2 & -> & R2).
  apply score_default_adj_inv in Hm3 as [-> ->].
  exists a1, a2, l1, l2. split; [exact R1|]. split; [exact R2|].
  split; [reflexivity|]. by rewrite <- !app_assoc.
Qed.

Lemma payment_behaviour_spec data rs x rs' :
  payment_behaviour_of data rs = Ok (x, rs') ->
  exists l, rs' = rs ++ l /\ rule_ok 0 20 15 payment_reasons 3 x l.
Proof.
  intros H. apply payment_behaviour_parts in H
    as (sd & sb & ld & lb & R1 & R2 & -> & ->).
  eexists. split; [reflexivity|].
  exact (rule_ok_clamp _ _ _ _ _ _ _ 0 30
           (rule_ok_add _ _ _ _ _ _ _ _ _ _ _ _ _ _
              (rule_ok_add _ _ _ _ _ _ _ _ _ _ _ _ _ _ R1 R2)
              (flag_rule_ok _ (-5) "History of default / write-off reported."
                 ltac:(lia)))).
Qed.

(** The external-checks block: three rules; the clamp to [0, 15] never
    changes their sum. *)
Lemma external_checks_spec data rs x rs' :
  external_checks_of data rs = Ok (x, rs') ->
  exists l, rs' = rs ++ l /\ rule_ok 2 15 7 external_reasons 3 x l.
Proof.
  unfold external_checks_of. intros H. split_binds H.
  apply ret_Ok in H as [-> ->].
  apply (rule_spec_inv _ _ _ _ _ _ _ _ _ (score_gst_spec _)) in Hm as (l1 & -> & R1).
  apply (rule_spec_inv _ _ _ _ _ _ _ _ _ (score_lit_spec _)) in Hm0 as (l2 & -> & R2).
  apply (rule_sound_inv _ _ _ _ _ _ _ _ _ (score_rating_sound _)) in Hm1 as (l3 & -> & R3).
  exists ((l1 ++ l2) ++ l3). split; [by rewrite <- !app_assoc|].
  exact (rule_ok_clamp _ _ _ _ _ _ _ 0 15
           (rule_ok_add _ _ _ _ _ _ _ _ _ _ _ _ _ _
              (rule_ok_add _ _ _ _ _ _ _ _ _ _ _ _ _ _ R1 R2) R3)).
Qed.

(** The stability block: three rules, then the management penalty read from
    [management_risk_flag], then the clamp to [0, 15]. *)
Lemma business_stability_parts data rs x rs' :
  business_stability_of data rs = Ok (x, rs') ->
  let mgmt_risk := truthy (get data "management_risk_flag" (VBool false)) in
  exists raw l,
    rule_ok 1 15 7
      ["Limited operating history."; "High-risk industry.";
       "Moderate customer concentration.";
       "Very high dependence on few customers."] 3 raw l /\
    x = _clamp (raw + (if mgmt_risk then -3 else 0)) 0 15 /\
    rs' = rs ++ l
             ++ (if mgmt_risk
                 then ["Concerns flagged on management integrity / governance."]
                 else []).
Proof.
  unfold business_stability_of. intros H. split_binds H.
  apply ret_Ok in H as [-> ->].
  apply call_Ok in Hm as [_ ->]. apply call_Ok in Hm0 as [_ ->].
  apply call_Ok in Hm1 as [_ ->].
  apply (rule_spec_inv _ _ _ _ _ _ _ _ _ (score_years_spec _)) in Hm2 as (l1 & -> & R1).
  apply (rule_spec_inv _ _ _ _ _ _ _ _ _ (score_industry_spec _)) in Hm3 as (l2 & -> & R2).
  apply (rule_spec_inv _ _ _ _ _ _ _ _ _ (score_conc_spec _)) in Hm4 as (l3 & -> & R3).
  apply mgmt_penalty_inv in Hm5 as [-> ->].
  exists (a2 + a3 + a4), ((l1 ++ l2) ++ l3). split; [|split].
  - exact (rule_ok_add _ _ _ _ _ _ _ _ _ _ _ _ _ _
             (rule_ok_add _ _ _ _ _ _ _ _ _ _ _ _ _ _ R1 R2) R3).
  - reflexivity.
  - by rewrite <- !app_assoc.
Qed.

Lemma business_stability_spec data rs x rs' :
  business_stability_of data rs = Ok (x, rs') ->
  exists l, rs' = rs ++ l /\ rule_ok 0 15 7 stability_reasons 4 x l.
Proof.
  intros H. apply business_stability_parts in H as (raw & l & R & -> & ->).
  eexists. split; [reflexivity|].
  exact (rule_ok_clamp _ _ _ _ _ _ _ 0 15
           (rule_ok_add _ _ _ _ _ _ _ _ _ _ _ _ _ _ R
              (flag_rule_ok _ (-3)
                 "Concerns flagged on management integrity / governance."
                 ltac:(lia)))).
Qed.

End Categories.

(* ===================================================================== *)
(** ** The aggregate *)
(* ===================================================================== *)

Lemma all_reasons_NoDup : NoDup all_reasons.
Proof. apply (bool_decide_unpack _). vm_compute. exact I. Qed.

(** A successful evaluation, category by category: the published scores,
    the messages each category added, and what each category guarantees. *)
Lemma evaluate_customer_parts `{B : Builtins} data r :
  evaluate_customer data = Ok r ->
  exists fs pb ec bs lf lp le ls,
    category r "financial_strength" = Some fs /\
    category r "payment_behaviour" = Some pb /\
    category r "external_checks" = Some ec /\
    category r "business_stability" = Some bs /\
    total_score r = _clamp (fs + pb + ec + bs) 0 100 /\
    reasons r = ((lf ++ lp) ++ le) ++ ls /\
    rule_ok 4 40 17 financial_reasons 5 fs lf /\
    rule_ok 0 20 15 payment_reasons 3 pb lp /\
    rule_ok 2 15 7 external_reasons 3 ec le /\
    rule_ok 0 15 7 stability_reasons 4 bs ls.
Proof.
  intros H. apply evaluate_customer_Ok in H
    as (fs & pb & ec & bs & rs1 & rs2 & rs3 & rs4 &
        Hfs & Hpb & Hec & Hbs & Ht & _ & _ & Cfs & Cpb & Cec & Cbs & Hr).
  apply financial_strength_spec in Hfs as (lf & -> & Rf).
  apply payment_behaviour_spec in Hpb as (lp & -> & Rp).
  apply external_checks_spec in Hec as (le & -> & Re).
  apply business_stability_spec in Hbs as (ls & -> & Rs).
  exists fs, pb, ec, bs, lf, lp, le, ls.
  repeat (split; [assumption|]). assumption.
Qed.

(** The total with its reasons, as one rule: the final clamp to [0, 100]
    is the identity. *)
Lemma evaluate_customer_total `{B : Builtins} data r :
  evaluate_customer data = Ok r ->
  rule_ok 6 90 46 all_reasons 15 (total_score r) (reasons r).
Proof.
  intros H. apply evaluate_customer_parts in H
    as (fs & pb & ec & bs & lf & lp & le & ls &
        _ & _ & _ & _ & -> & -> & Rf & Rp & Re & Rs).
  exact (rule_ok_clamp _ _ _ _ _ _ _ 0 100
           (rule_ok_add _ _ _ _ _ _ _ _ _ _ _ _ _ _
              (rule_ok_add _ _ _ _ _ _ _ _ _ _ _ _ _ _
                 (rule_ok_add _ _ _ _ _ _ _ _ _ _ _ _ _ _ Rf Rp) Re) Rs)).
Qed.

(** X1. The published total is exactly the sum of the four published
    category scores: the defensive clamp of the sum to [0, 100] never
    changes it. *)
Theorem total_is_sum_of_categories `{B : Builtins}
    (data : gmap string value) (r : ScoreResult) :
  evaluate_customer data = Ok r ->
  exists fs pb ec bs,
    category r "financial_strength" = Some fs /\
    category r "payment_behaviour" = Some pb /\
    category r "external_checks" = Some ec /\
    category r "business_stability" = Some bs /\
    total_score r = fs + pb + ec + bs.
Proof.
  intros H. apply evaluate_customer_parts in H
    as (fs & pb & ec & bs & lf & lp & le & ls &
        Cfs & Cpb & Cec & Cbs & Ht & _ & (Rf & _) & (Rp & _) & (Re & _) & (Rs & _)).
  exists fs, pb, ec, bs. repeat (split; [assumption|]).
  rewrite Ht. unfold _clamp. lia.
Qed.

Lemma total_is_sum_of_categories_witness :
  exists r fs pb ec bs,
    evaluate_customer (B := plain_numerals) strong_applicant = Ok r /\
    category r "financial_strength" = Some fs /\
    category r "payment_behaviour" = Some pb /\
    category r "external_checks" = Some ec /\
    category r "business_stability" = Some bs /\
    total_score r = fs + pb + ec + bs.
Proof.
  destruct (evaluate_customer (B := plain_numerals) strong_applicant) as [r|e] eqn:H;
    [|vm_compute in H; discriminate].
  destruct (total_is_sum_of_categories strong_applicant r H)
    as (fs & pb & ec & bs & Hrest).
  exists r, fs, pb, ec, bs. split; [reflexivity|exact Hrest].
Defined.

(** X2. The scores the rule table can actually produce: financial_strength
    lies in [4, 40], payment_behaviour in [0, 20] (its two rules give at most
    10 + 10, so the ceiling 30 is out of reach), external_checks in [2, 15],
    business_stability in [0, 15], and the total in [6, 90]. Both ends of
    the total are reached: 90 by the strong applicant, 6 by the weak one. *)
Theorem achievable_score_ranges `{B : Builtins} :
  (forall (data : gmap string value) (r : ScoreResult),
     evaluate_customer data = Ok r ->
     exists fs pb ec bs,
       category r "financial_strength" = Some fs /\
       category r "payment_behaviour" = Some pb /\
       category r "external_checks" = Some ec /\
       category r "business_stability" = Some bs /\
       4 <= fs <= 40 /\ 0 <= pb <= 20 /\ 2 <= ec <= 15 /\ 0 <= bs <= 15 /\
       6 <= total_score r <= 90) /\
  (exists r, evaluate_customer strong_applicant = Ok r /\ total_score r = 90) /\
  (exists r, evaluate_customer weak_applicant = Ok r /\ total_score r = 6).
Proof.
  split; [|split].
  - intros data r H.
    pose proof (evaluate_customer_total data r H) as (Ht & _).
    apply evaluate_customer_parts in H
      as (fs & pb & ec & bs & lf & lp & le & ls &
          Cfs & Cpb & Cec & Cbs & _ & _ & (Rf & _) & (Rp & _) & (Re & _) & (Rs & _)).
    exists fs, pb, ec, bs. repeat (split; [assumption|]). assumption.
  - eexists. split; vm_compute; reflexivity.
  - eexists. split; vm_compute; reflexivity.
Qed.

Lemma achievable_score_ranges_witness :
  exists r,
    evaluate_customer (B := plain_numerals) silent_applicant = Ok r /\
    6 <= total_score r <= 90.
Proof.
  destruct (evaluate_customer (B := plain_numerals) silent_applicant) as [r|e] eqn:H;
    [|vm_compute in H; discriminate].
  exists r. split; [reflexivity|].
  destruct (achievable_score_ranges (B := plain_numerals)) as (Hall & _).
  destruct (Hall silent_applicant r H) as (fs & pb & ec & bs & Hrest).
  apply Hrest.
Defined.

(** X3. The reasons of a successful evaluation are a subsequence of the
    fixed list of messages in category and rule order: every reason is one
    of these messages, none occurs twice, their order is fixed, and there
    are at most fifteen (one per rule). *)
Theorem reasons_in_fixed_order_without_duplicates `{B : Builtins}
    (data : gmap string value) (r : ScoreResult) :
  evaluate_customer data = Ok r ->
  reasons r `sublist_of` all_reasons /\
  NoDup (reasons r) /\
  (length (reasons r) <= 15)%nat.
Proof.
  intros H. destruct (evaluate_customer_total data r H) as (_ & _ & Hsub & Hlen).
  split; [exact Hsub|]. split; [|exact Hlen].
  exact (sublist_NoDup _ _ all_reasons_NoDup Hsub).
Qed.

Lemma reasons_in_fixed_order_without_duplicates_witness :
  exists r,
    evaluate_customer (B := plain_numerals) weak_applicant = Ok r /\
    reasons r `sublist_of` all_reasons /\
    NoDup (reasons r) /\
    (length (reasons r) <= 15)%nat.
Proof.
  destruct (evaluate_customer (B := plain_numerals) weak_applicant) as [r|e] eqn:H;
    [|vm_compute in H; discriminate].
  exists r. split; [reflexivity|].
  exact (reasons_in_fixed_order_without_duplicates weak_applicant r H).
Defined.

(** X5. When no reason is reported the total is at least 46. The bound is
    reached: the silent applicant is rejected (total 46, band HIGH) with an
    empty list of reasons. *)
Theorem no_reason_means_at_least_46 `{B : Builtins} :
  (forall (data : gmap string value) (r : ScoreResult),
     evaluate_customer data = Ok r -> reasons r = [] -> 46 <= total_score r) /\
  (exists r,
     evaluate_customer silent_applicant = Ok r /\
     reasons r = [] /\ total_score r = 46 /\
     risk_band r = HIGH /\ decision r = REJECT).
Proof.
  split.
  - intros data r H Hnil.
    destruct (evaluate_customer_total data r H) as (_ & Hq & _). auto.
  - eexists. repeat split; vm_compute; reflexivity.
Qed.

Lemma no_reason_means_at_least_46_witness :
  exists r,
    evaluate_customer (B := plain_numerals) strong_applicant = Ok r /\
    reasons r = [] /\ 46 <= total_score r.
Proof.
  destruct (evaluate_customer (B := plain_numerals) strong_applicant) as [r|e] eqn:H;
    [|vm_compute in H; discriminate].
  exists r. split; [reflexivity|].
  assert (Hnil : reasons r = []) by (vm_compute in H; injection H as <-; reflexivity).
  split; [exact Hnil|].
  destruct (no_reason_means_at_least_46 (B := plain_numerals)) as (Hall & _).
  exact (Hall strong_applicant r H Hnil).
Defined.

(* ===================================================================== *)
(** ** The scores as a formula of the converted numbers *)
(* ===================================================================== *)

Lemma rule_value (m : M Z) (rs : list string) (s : Z) (rs' : list string) :
  appender m -> m rs = Ok (s, rs') -> s = value_of m.
Proof.
  intros Hm H. apply (appender_inv m s rs rs' Hm) in H as (l & H & _).
  unfold value_of. rewrite H. reflexivity.
Qed.

Lemma rule_spec_value (m : M Z) lo hi quiet msgs k :
  rule_spec m lo hi quiet msgs k -> lo <= value_of m <= hi.
Proof.
  intros [_ (s & l & H & (Hr & _))]. unfold value_of. rewrite H. exact Hr.
Qed.

Section Formula.
Context {B : Builtins}.

Lemma financial_strength_formula data rs x rs' :
  financial_strength_of data rs = Ok (x, rs') ->
  exists npm curr_ratio d2e bank_util trend,
    py_float (get data "net_profit_margin" (VFloat 0.0)) = Ok npm /\
    py_float (get data "current_ratio" (VFloat 0.0)) = Ok curr_ratio /\
    py_float (get data "debt_to_equity" (VFloat 0.0)) = Ok d2e /\
    py_float (get data "banking_limit_utilisation" (VFloat 0.0)) = Ok bank_util /\
    trend_of data = Ok trend /\
    x = _clamp (value_of (score_npm npm) + value_of (score_current_ratio curr_ratio)
                + value_of (score_d2e d2e) + value_of (score_bank bank_util)
                + value_of (score_trend trend)) 0 40.
Proof.
  unfold financial_strength_of. intros H. split_binds H.
  apply ret_Ok in H as [-> ->].
  apply call_Ok in Hm as [C1 ->]. apply call_Ok in Hm0 as [C2 ->].
  apply call_Ok in Hm1 as [C3 ->]. apply call_Ok in Hm2 as [C4 ->].
  apply call_Ok in Hm3 as [C5 ->].
  apply rule_value in Hm4 as ->; [|apply score_npm_spec].
  apply rule_value in Hm5 as ->; [|apply score_current_ratio_spec].
  apply rule_value in Hm6 as ->; [|apply score_d2e_spec].
  apply rule_value in Hm7 as ->; [|apply score_bank_spec].
  apply rule_value in Hm8 as ->; [|apply score_trend_spec].
  exists a, a0, a1, a2, a3. auto 6.
Qed.

Lemma payment_behaviour_formula data rs x rs' :
  payment_behaviour_of data rs = Ok (x, rs') ->
  exists avg_days bounces,
    py_int (py_or (get data "avg_days_to_pay" (VInt 45)) (VInt 45)) = Ok avg_days /\
    py_int (py_or (get data "bounced_cheques_last_12m" (VInt 0)) (VInt 0)) = Ok bounces /\
    x = _clamp (value_of (score_days avg_days) + value_of (score_bounce bounces)
                + (if truthy (get data "past_default_flag" (VBool false))
                   then -5 else 0)) 0 30.
Proof.
  unfold payment_behaviour_of, avg_days_of. intros H. split_binds H.
  apply ret_Ok in H as [-> ->].
  apply call_Ok in Hm as [C1 ->]. apply call_Ok in Hm0 as [C2 ->].
  apply rule_value in Hm1 as ->; [|apply score_days_spec].
  apply rule_value in Hm2 as ->; [|apply score_bounce_spec].
  apply score_default_adj_inv in Hm3 as [-> _].
  exists a, a0. auto.
Qed.

(** When the rating rule returns, the text it compares was produced. *)
Lemma score_rating_Ok_text v rs s rs' :
  score_rating v rs = Ok (s, rs') ->
  exists code, (if truthy v then str_upper v else Ok "") = Ok code.
Proof.
  intros H. destruct (truthy v) eqn:Ht; [|eauto].
  destruct (str_upper v) as [code|e] eqn:Hs; [eauto|].
  rewrite (score_rating_raises v e rs Ht Hs) in H. discriminate.
Qed.

Lemma external_checks_formula data rs x rs' :
  external_checks_of data rs = Ok (x, rs') ->
  exists code, rating_text data = Ok code /\ x = external_formula data.
Proof.
  unfold external_checks_of, external_formula, rating_text. intros H. split_binds H.
  apply ret_Ok in H as [-> ->].
  apply rule_value in Hm as ->; [|apply score_gst_spec].
  apply rule_value in Hm0 as ->; [|apply score_lit_spec].
  destruct (score_rating_Ok_text _ _ _ _ Hm1) as [code Hcode].
  apply rule_value in Hm1 as ->; [|apply score_rating_appender].
  exists code. auto.
Qed.

Lemma business_stability_formula data rs x rs' :
  business_stability_of data rs = Ok (x, rs') ->
  exists years industry_risk top5_share,
    py_float (py_or (get data "years_in_business" (VFloat 0.0)) (VFloat 0.0)) = Ok years /\
    str_lower (py_or (get data "industry_risk" (VStr "medium")) (VStr "medium"))
      = Ok industry_risk /\
    py_float (py_or (get data "top_5_customer_share" (VFloat 0.0)) (VFloat 0.0))
      = Ok top5_share /\
    x = _clamp (value_of (score_years years)
                + value_of (score_industry industry_risk)
                + value_of (score_conc top5_share)
                + (if truthy (get data "management_risk_flag" (VBool false))
                   then -3 else 0)) 0 15.
Proof.
  unfold business_stability_of. intros H. split_binds H.
  apply ret_Ok in H as [-> ->].
  apply call_Ok in Hm as [C1 ->]. apply call_Ok in Hm0 as [C2 ->].
  apply call_Ok in Hm1 as [C3 ->].
  apply rule_value in Hm2 as ->; [|apply score_years_spec].
  apply rule_value in Hm3 as ->; [|apply score_industry_spec].
  apply rule_value in Hm4 as ->; [|apply score_conc_spec].
  apply mgmt_penalty_inv in Hm5 as [-> _].
  exists a, a0, a1. auto.
Qed.

Lemma total_of_categories data r fs pb ec bs :
  evaluate_customer data = Ok r ->
  category r "financial_strength" = Some fs ->
  category r "payment_behaviour" = Some pb ->
  category r "external_checks" = Some ec ->
  category r "business_stability" = Some bs ->
  total_score r = fs + pb + ec + bs.
Proof.
  intros H Cfs Cpb Cec Cbs. apply evaluate_customer_parts in H
    as (fs' & pb' & ec' & bs' & lf & lp & le & ls &
        Cfs' & Cpb' & Cec' & Cbs' & Ht & _ & (Rf & _) & (Rp & _) & (Re & _) & (Rs & _)).
  assert (fs' = fs) as -> by congruence. assert (pb' = pb) as -> by congruence.
  assert (ec' = ec) as -> by congruence. assert (bs' = bs) as -> by congruence.
  rewrite Ht. unfold _clamp. lia.
Qed.

(** A successful evaluation converted its eight numbers and three texts
    and published the four formulas and their sum. *)
Lemma evaluate_customer_formula data r :
  evaluate_customer data = Ok r ->
  exists n,
    converts data n /\
    category r "financial_strength" = Some (financial_formula n) /\
    category r "payment_behaviour" = Some (payment_formula data n) /\
    category r "external_checks" = Some (external_formula data) /\
    category r "business_stability" = Some (stability_formula data n) /\
    total_score r = financial_formula n + payment_formula data n
                    + external_formula data + stability_formula data n.
Proof.
  intros H.
  pose proof (fun fs pb ec bs => total_of_categories data r fs pb ec bs H) as Hsum.
  apply evaluate_customer_Ok in H
    as (fs & pb & ec & bs & rs1 & rs2 & rs3 & rs4 &
        Hfs & Hpb & Hec & Hbs & Ht & _ & _ & Cfs & Cpb & Cec & Cbs & _).
  apply financial_strength_formula in Hfs
    as (npm & cr & d2e & bu & tr & F1 & F2 & F3 & F4 & F5 & ->).
  apply payment_behaviour_formula in Hpb as (avg & bo & P1 & P2 & ->).
  apply external_checks_formula in Hec as (code & E1 & ->).
  apply business_stability_formula in Hbs as (ye & ind & t5 & S1 & S2 & S3 & ->).
  exists {| n_npm := npm; n_curr_ratio := cr; n_d2e := d2e; n_bank_util := bu;
            n_trend := tr; n_avg_days := avg; n_bounces := bo; n_rating := code;
            n_years := ye; n_industry_risk := ind; n_top5_share := t5 |}.
  cbv beta iota delta [converts financial_formula payment_formula stability_formula
    n_npm n_curr_ratio n_d2e n_bank_util n_trend n_avg_days n_bounces n_rating
    n_years n_industry_risk n_top5_share].
  split; [repeat split; assumption|].
  repeat (split; [assumption|]).
  apply Hsum; assumption.
Qed.

End Formula.

(* ===================================================================== *)
(** ** Flags and their reasons *)
(* ===================================================================== *)

Lemma rule_ok_not_elem lo hi q msgs n s l (msg : string) :
  rule_ok lo hi q msgs n s l -> msg ∉ msgs -> msg ∉ l.
Proof.
  intros (_ & _ & Hsub & _) Hnot Hin.
  apply Hnot. exact (sublist_subseteq _ _ Hsub _ Hin).
Qed.

(** Membership of a literal in a literal list, by computation. *)
Ltac literal_absent := apply (bool_decide_unpack _); vm_compute; exact I.

(** X4. The default-history reason is reported exactly when
    past_default_flag is truthy, and the governance reason exactly when
    management_risk_flag is truthy; no other rule produces them, and the
    clamp that absorbs a penalty does not remove its reason. *)
Theorem flag_reasons_iff_flags `{B : Builtins}
    (data : gmap string value) (r : ScoreResult) :
  evaluate_customer data = Ok r ->
  ("History of default / write-off reported." ∈ reasons r <->
     truthy (get data "past_default_flag" (VBool false)) = true) /\
  ("Concerns flagged on management integrity / governance." ∈ reasons r <->
     truthy (get data "management_risk_flag" (VBool false)) = true).
Proof.
  intros H. apply evaluate_customer_Ok in H
    as (fs & pb & ec & bs & rs1 & rs2 & rs3 & rs4 &
        Hfs & Hpb & Hec & Hbs & _ & _ & _ & _ & _ & _ & _ & ->).
  apply financial_strength_spec in Hfs as (lf & -> & Rf).
  apply payment_behaviour_parts in Hpb as (sd & sb & ld & lb & Rd & Rb & _ & ->).
  apply external_checks_spec in Hec as (le & -> & Re).
  apply business_stability_parts in Hbs as (raw & ls & Rs & _ & ->).
  cbv zeta. rewrite !elem_of_app, !elem_of_nil.
  split.
  - assert ("History of default / write-off reported." ∉ lf)
      by (eapply rule_ok_not_elem; [exact Rf|literal_absent]).
    assert ("History of default / write-off reported." ∉ ld)
      by (eapply rule_ok_not_elem; [exact Rd|literal_absent]).
    assert ("History of default / write-off reported." ∉ lb)
      by (eapply rule_ok_not_elem; [exact Rb|literal_absent]).
    assert ("History of default / write-off reported." ∉ le)
      by (eapply rule_ok_not_elem; [exact Re|literal_absent]).
    assert ("History of default / write-off reported." ∉ ls)
      by (eapply rule_ok_not_elem; [exact Rs|literal_absent]).
    destruct (truthy (get data "past_default_flag" (VBool false)));
      destruct (truthy (get data "management_risk_flag" (VBool false)));
      rewrite ?list_elem_of_singleton, ?elem_of_nil; split; intros; try done;
      try tauto; intuition discriminate.
  - assert ("Concerns flagged on management integrity / governance." ∉ lf)
      by (eapply rule_ok_not_elem; [exact Rf|literal_absent]).
    assert ("Concerns flagged on management integrity / governance." ∉ ld)
      by (eapply rule_ok_not_elem; [exact Rd|literal_absent]).
    assert ("Concerns flagged on management integrity / governance." ∉ lb)
      by (eapply rule_ok_not_elem; [exact Rb|literal_absent]).
    assert ("Concerns flagged on management integrity / governance." ∉ le)
      by (eapply rule_ok_not_elem; [exact Re|literal_absent]).
    assert ("Concerns flagged on management integrity / governance." ∉ ls)
      by (eapply rule_ok_not_elem; [exact Rs|literal_absent]).
    destruct (truthy (get data "past_default_flag" (VBool false)));
      destruct (truthy (get data "management_risk_flag" (VBool false)));
      rewrite ?list_elem_of_singleton, ?elem_of_nil; split; intros; try done;
      try tauto; intuition discriminate.
Qed.

Lemma flag_reasons_iff_flags_witness :
  exists r,
    evaluate_customer (B := plain_numerals) {[ "past_default_flag" := VInt 1 ]} = Ok r /\
    "History of default / write-off reported." ∈ reasons r /\
    "Concerns flagged on management integrity / governance." ∉ reasons r.
Proof.
  destruct (evaluate_customer (B := plain_numerals) {[ "past_default_flag" := VInt 1 ]})
    as [r|e] eqn:H; [|vm_compute in H; discriminate].
  exists r. split; [reflexivity|].
  destruct (flag_reasons_iff_flags _ r H) as [Hd Hm].
  split.
  - apply Hd. reflexivity.
  - intros Hin. apply Hm in Hin. vm_compute in Hin. discriminate.
Defined.

(* ===================================================================== *)
(** ** Which parts of the record matter *)
(* ===================================================================== *)

(** Open [evaluate_customer] down to the lookups in the record. *)
Ltac open_evaluation :=
  unfold evaluate_customer, evaluate_body, financial_strength_of, trend_of,
    payment_behaviour_of, avg_days_of, external_checks_of, business_stability_of, get.

(** X11. Keys other than the fifteen fields are ignored: adding such a key
    to the record, or removing it, does not change the outcome. *)
Theorem unknown_keys_ignored `{B : Builtins}
    (data : gmap string value) (key : string) (v : value) :
  key ∉ fields ->
  evaluate_customer (<[key := v]> data) = evaluate_customer data /\
  evaluate_customer (delete key data) = evaluate_customer data.
Proof.
  intros Hkey. split; apply evaluate_customer_reads_fields; intros k Hk.
  - apply lookup_insert_ne. intros ->. contradiction.
  - apply lookup_delete_ne. intros ->. contradiction.
Qed.

Lemma unknown_keys_ignored_witness :
  evaluate_customer (B := plain_numerals) (<["customer_name" := VStr "Acme"]> weak_applicant)
    = evaluate_customer (B := plain_numerals) weak_applicant.
Proof.
  apply (unknown_keys_ignored (B := plain_numerals) weak_applicant "customer_name"
           (VStr "Acme")).
  literal_absent.
Defined.

(** X10. For ten of the fifteen fields a null value is scored exactly like
    the absent field: avg_days_to_pay, bounced_cheques_last_12m,
    past_default_flag, gst_filing_timely, active_litigation, credit_rating,
    years_in_business, industry_risk, top_5_customer_share and
    management_risk_flag. *)
Theorem null_scored_as_absent `{B : Builtins}
    (data : gmap string value) (f : string) :
  f ∈ null_tolerant_fields ->
  evaluate_customer (<[f := VNone]> data) = evaluate_customer (delete f data).
Proof.
  intros Hf. unfold null_tolerant_fields in Hf.
  repeat (apply elem_of_cons in Hf as [->|Hf];
          [open_evaluation;
           rewrite lookup_insert_eq, lookup_delete_eq,
             !lookup_insert_ne, !lookup_delete_ne by done;
           reflexivity|]).
  by apply elem_of_nil in Hf.
Qed.

Lemma null_scored_as_absent_witness :
  evaluate_customer (B := plain_numerals) (<["industry_risk" := VNone]> weak_applicant)
    = evaluate_customer (B := plain_numerals) (delete "industry_risk" weak_applicant).
Proof.
  apply (null_scored_as_absent (B := plain_numerals) weak_applicant "industry_risk").
  literal_absent.
Defined.

Lemma lower_empty (s : string) : lower s = "" <-> s = "".
Proof. destruct s; simpl; split; intros; (reflexivity || discriminate). Qed.

Lemma upper_empty (s : string) : upper s = "" <-> s = "".
Proof. destruct s; simpl; split; intros; (reflexivity || discriminate). Qed.

Lemma eqb_empty_lower (s s' : string) :
  lower s = lower s' -> String.eqb s "" = String.eqb s' "".
Proof.
  intros H. destruct (String.eqb_spec s ""), (String.eqb_spec s' ""); try reflexivity; subst.
  - symmetry in H. apply (proj1 (lower_empty _)) in H. contradiction.
  - apply (proj1 (lower_empty _)) in H. contradiction.
Qed.

Lemma eqb_empty_upper (s s' : string) :
  upper s = upper s' -> String.eqb s "" = String.eqb s' "".
Proof.
  intros H. destruct (String.eqb_spec s ""), (String.eqb_spec s' ""); try reflexivity; subst.
  - symmetry in H. apply (proj1 (upper_empty _)) in H. contradiction.
  - apply (proj1 (upper_empty _)) in H. contradiction.
Qed.

(** The text a string field is compared by, after [... or dflt] and
    [.lower()]. *)
Lemma lower_text_of `{B : Builtins} (s : string) (dflt : string) :
  str_lower (py_or (VStr s) (VStr dflt))
  = Ok (if String.eqb s "" then lower dflt else lower s).
Proof. unfold py_or, truthy. destruct (String.eqb s ""); reflexivity. Qed.

(** X7. The three text fields are compared without regard to letter case:
    two turnover_trend or industry_risk strings with the same lower-case
    form, and two credit_rating strings with the same upper-case form, give
    the same outcome (scores, band, decision and reasons). *)
Theorem text_fields_ignore_letter_case `{B : Builtins} (data : gmap string value) :
  (forall s s' : string,
     lower s = lower s' ->
     evaluate_customer (<["turnover_trend" := VStr s]> data)
       = evaluate_customer (<["turnover_trend" := VStr s']> data) /\
     evaluate_customer (<["industry_risk" := VStr s]> data)
       = evaluate_customer (<["industry_risk" := VStr s']> data)) /\
  (forall s s' : string,
     upper s = upper s' ->
     evaluate_customer (<["credit_rating" := VStr s]> data)
       = evaluate_customer (<["credit_rating" := VStr s']> data)).
Proof.
  split.
  - intros s s' H. pose proof (eqb_empty_lower s s' H) as He. split.
    + open_evaluation.
      rewrite !lookup_insert_eq, !lookup_insert_ne by done.
      rewrite !lower_text_of, He, H. reflexivity.
    + open_evaluation.
      rewrite !lookup_insert_eq, !lookup_insert_ne by done.
      rewrite !lower_text_of, He, H. reflexivity.
  - intros s s' H. pose proof (eqb_empty_upper s s' H) as He.
    open_evaluation.
    rewrite !lookup_insert_eq, !lookup_insert_ne by done.
    unfold score_rating, truthy, str_upper, py_str. rewrite He, H. reflexivity.
Qed.

Lemma text_fields_ignore_letter_case_witness :
  evaluate_customer (B := plain_numerals) (<["industry_risk" := VStr "HIGH"]> ∅)
    = evaluate_customer (B := plain_numerals) (<["industry_risk" := VStr "high"]> ∅) /\
  evaluate_customer (B := plain_numerals) (<["credit_rating" := VStr "bbb"]> ∅)
    = evaluate_customer (B := plain_numerals) (<["credit_rating" := VStr "BBB"]> ∅).
Proof.
  destruct (text_fields_ignore_letter_case (B := plain_numerals) ∅) as [Hlow Hup].
  split.
  - apply (Hlow "HIGH" "high"). reflexivity.
  - apply (Hup "bbb" "BBB"). reflexivity.
Defined.

(* ===================================================================== *)
(** ** Changing one field *)
(* ===================================================================== *)

Lemma value_of_score_days_antitone (d d' : Z) :
  d <= d' -> value_of (score_days d') <= value_of (score_days d).
Proof.
  intros Hle. unfold value_of, score_days.
  destruct (Z.leb_spec d 30), (Z.leb_spec d 45), (Z.leb_spec d 60), (Z.leb_spec d 90);
    try lia;
    destruct (Z.leb_spec d' 30), (Z.leb_spec d' 45), (Z.leb_spec d' 60), (Z.leb_spec d' 90);
    try lia; simpl; lia.
Qed.

Lemma value_of_score_bounce_antitone (b b' : Z) :
  0 <= b <= b' -> value_of (score_bounce b') <= value_of (score_bounce b).
Proof.
  intros Hle. unfold value_of, score_bounce.
  destruct (Z.eqb_spec b 0), (Z.leb_spec b 2), (Z.leb_spec b 5); try lia;
    destruct (Z.eqb_spec b' 0), (Z.leb_spec b' 2), (Z.leb_spec b' 5); try lia;
    simpl; lia.
Qed.

(** Two evaluations that succeeded, as formulas over the lookups of the two
    records; conversions of the same value are identified. *)
Ltac compare_runs H0 H1 :=
  let n0 := fresh "n" in
  let n1 := fresh "n'" in
  apply evaluate_customer_formula in H0
    as (n0 & (?&?&?&?&?&?&?&?&?&?&?) & ? & ? & ? & ? & ?);
  apply evaluate_customer_formula in H1
    as (n1 & (?&?&?&?&?&?&?&?&?&?&?) & ? & ? & ? & ? & ?);
  destruct n0, n1;
  unfold financial_formula, payment_formula, external_formula, stability_formula,
    trend_of, rating_text, get in *;
  cbn [n_npm n_curr_ratio n_d2e n_bank_util n_trend n_avg_days n_bounces n_rating
       n_years n_industry_risk n_top5_share] in *;
  rewrite ?lookup_insert_eq in *;
  rewrite ?lookup_insert_ne in * by done;
  repeat match goal with
    | Ha : ?x = Ok ?a, Hb : ?x = Ok ?b |- _ =>
        rewrite Ha in Hb; injection Hb as <-
    end.

(** X14. Away from the value 0, a shorter payment delay never costs
    points: for integers d <= d', both different from 0, the record with
    avg_days_to_pay = d gets at least the payment_behaviour score and at
    least the total of the record with avg_days_to_pay = d', all other
    fields being the same. *)
Theorem shorter_delay_never_lowers_total `{B : Builtins}
    (data : gmap string value) (d d' : Z) (r r' : ScoreResult) :
  d <> 0 -> d' <> 0 -> d <= d' ->
  evaluate_customer (<["avg_days_to_pay" := VInt d]> data) = Ok r ->
  evaluate_customer (<["avg_days_to_pay" := VInt d']> data) = Ok r' ->
  (exists pb pb',
     category r "payment_behaviour" = Some pb /\
     category r' "payment_behaviour" = Some pb' /\ pb' <= pb) /\
  total_score r' <= total_score r.
Proof.
  intros Hd Hd' Hle H0 H1. compare_runs H0 H1.
  assert (n_avg_days0 = d) as ->.
  { unfold py_or, truthy in *. destruct (Z.eqb_spec d 0); [contradiction|].
    simpl in *. congruence. }
  assert (n_avg_days1 = d') as ->.
  { unfold py_or, truthy in *. destruct (Z.eqb_spec d' 0); [contradiction|].
    simpl in *. congruence. }
  pose proof (value_of_score_days_antitone d d' Hle) as Hdays.
  split.
  - do 2 eexists. split; [eassumption|]. split; [eassumption|].
    unfold _clamp. lia.
  - match goal with
    | Ht : total_score r = _, Ht' : total_score r' = _ |- _ => rewrite Ht, Ht'
    end.
    unfold _clamp. lia.
Qed.

Lemma shorter_delay_never_lowers_total_witness :
  exists r r',
    evaluate_customer (B := plain_numerals) (<["avg_days_to_pay" := VInt 20]> ∅) = Ok r /\
    evaluate_customer (B := plain_numerals) (<["avg_days_to_pay" := VInt 70]> ∅) = Ok r' /\
    total_score r' <= total_score r.
Proof.
  destruct (evaluate_customer (B := plain_numerals) (<["avg_days_to_pay" := VInt 20]> ∅))
    as [r|e] eqn:H; [|vm_compute in H; discriminate].
  destruct (evaluate_customer (B := plain_numerals) (<["avg_days_to_pay" := VInt 70]> ∅))
    as [r'|e] eqn:H'; [|vm_compute in H'; discriminate].
  exists r, r'. split; [reflexivity|]. split; [reflexivity|].
  apply (shorter_delay_never_lowers_total (B := plain_numerals) ∅ 20 70 r r');
    (lia || assumption).
Defined.

(** X8. For cheque-bounce counts 0 <= b <= b', the record with
    bounced_cheques_last_12m = b gets at least the payment_behaviour score
    and at least the total of the record with b', all other fields being the
    same. (A negative count is not scored as 0: it falls in the 1-2 band.) *)
Theorem fewer_bounces_never_lower_total `{B : Builtins}
    (data : gmap string value) (b b' : Z) (r r' : ScoreResult) :
  0 <= b <= b' ->
  evaluate_customer (<["bounced_cheques_last_12m" := VInt b]> data) = Ok r ->
  evaluate_customer (<["bounced_cheques_last_12m" := VInt b']> data) = Ok r' ->
  (exists pb pb',
     category r "payment_behaviour" = Some pb /\
     category r' "payment_behaviour" = Some pb' /\ pb' <= pb) /\
  total_score r' <= total_score r.
Proof.
  intros Hle H0 H1. compare_runs H0 H1.
  assert (n_bounces0 = b) as ->.
  { unfold py_or, truthy in *. destruct (Z.eqb_spec b 0); simpl in *; congruence. }
  assert (n_bounces1 = b') as ->.
  { unfold py_or, truthy in *. destruct (Z.eqb_spec b' 0); simpl in *; congruence. }
  pose proof (value_of_score_bounce_antitone b b' Hle) as Hbounce.
  split.
  - do 2 eexists. split; [eassumption|]. split; [eassumption|].
    unfold _clamp. lia.
  - match goal with
    | Ht : total_score r = _, Ht' : total_score r' = _ |- _ => rewrite Ht, Ht'
    end.
    unfold _clamp. lia.
Qed.

Lemma fewer_bounces_never_lower_total_witness :
  exists r r',
    evaluate_customer (B := plain_numerals)
      (<["bounced_cheques_last_12m" := VInt 0]> ∅) = Ok r /\
    evaluate_customer (B := plain_numerals)
      (<["bounced_cheques_last_12m" := VInt 4]> ∅) = Ok r' /\
    total_score r' <= total_score r.
Proof.
  destruct (evaluate_customer (B := plain_numerals)
              (<["bounced_cheques_last_12m" := VInt 0]> ∅))
    as [r|e] eqn:H; [|vm_compute in H; discriminate].
  destruct (evaluate_customer (B := plain_numerals)
              (<["bounced_cheques_last_12m" := VInt 4]> ∅))
    as [r'|e] eqn:H'; [|vm_compute in H'; discriminate].
  exists r, r'. split; [reflexivity|]. split; [reflexivity|].
  apply (fewer_bounces_never_lower_total (B := plain_numerals) ∅ 0 4 r r');
    (lia || assumption).
Defined.

(** A count of -1 scores below a count of 0. *)
Lemma negative_bounce_count_scored_in_first_band (rs : list string) :
  score_bounce (-1) rs = Ok (7, rs ++ ["Some cheque bounces in last 12 months."]) /\
  score_bounce 0 rs = Ok (10, rs).
Proof. split; reflexivity. Qed.

(** X9. Setting past_default_flag takes 5 points off payment_behaviour and
    setting management_risk_flag takes 3 points off business_stability,
    except that the floor 0 of the category absorbs what would go below it;
    the total drops by the same amount, so by at most 5 and at most 3. *)
Theorem penalties_floor_at_zero `{B : Builtins}
    (data : gmap string value) (r0 r1 : ScoreResult) :
  (evaluate_customer (<["past_default_flag" := VBool false]> data) = Ok r0 ->
   evaluate_customer (<["past_default_flag" := VBool true]> data) = Ok r1 ->
   exists pb,
     category r0 "payment_behaviour" = Some pb /\
     category r1 "payment_behaviour" = Some (Z.max 0 (pb - 5)) /\
     total_score r1 = total_score r0 - pb + Z.max 0 (pb - 5)) /\
  (evaluate_customer (<["management_risk_flag" := VBool false]> data) = Ok r0 ->
   evaluate_customer (<["management_risk_flag" := VBool true]> data) = Ok r1 ->
   exists bs,
     category r0 "business_stability" = Some bs /\
     category r1 "business_stability" = Some (Z.max 0 (bs - 3)) /\
     total_score r1 = total_score r0 - bs + Z.max 0 (bs - 3)).
Proof.
  split; intros H0 H1; compare_runs H0 H1; cbn [truthy] in *.
  - pose proof (rule_spec_value _ _ _ _ _ _ (score_days_spec n_avg_days0)).
    pose proof (rule_spec_value _ _ _ _ _ _ (score_bounce_spec n_bounces0)).
    eexists. split; [eassumption|].
    match goal with
    | Ht : total_score r0 = _, Ht' : total_score r1 = _,
      Hc : category r1 "payment_behaviour" = _ |- _ => rewrite Ht, Ht', Hc
    end.
    unfold _clamp. split; [f_equal|]; lia.
  - pose proof (rule_spec_value _ _ _ _ _ _ (score_years_spec n_years0)).
    pose proof (rule_spec_value _ _ _ _ _ _ (score_conc_spec n_top5_share0)).
    match goal with
    | _ : context [value_of (score_industry ?x)] |- _ =>
        pose proof (rule_spec_value _ _ _ _ _ _ (score_industry_spec x))
    end.
    eexists. split; [eassumption|].
    match goal with
    | Ht : total_score r0 = _, Ht' : total_score r1 = _,
      Hc : category r1 "business_stability" = _ |- _ => rewrite Ht, Ht', Hc
    end.
    unfold _clamp. split; [f_equal|]; lia.
Qed.

Lemma penalties_floor_at_zero_witness :
  exists r0 r1,
    evaluate_customer (B := plain_numerals)
      (<["past_default_flag" := VBool false]> weak_applicant) = Ok r0 /\
    evaluate_customer (B := plain_numerals)
      (<["past_default_flag" := VBool true]> weak_applicant) = Ok r1 /\
    exists pb,
      category r0 "payment_behaviour" = Some pb /\
      category r1 "payment_behaviour" = Some (Z.max 0 (pb - 5)) /\
      total_score r1 = total_score r0 - pb + Z.max 0 (pb - 5).
Proof.
  destruct (evaluate_customer (B := plain_numerals)
              (<["past_default_flag" := VBool false]> weak_applicant))
    as [r0|e] eqn:H0; [|vm_compute in H0; discriminate].
  destruct (evaluate_customer (B := plain_numerals)
              (<["past_default_flag" := VBool true]> weak_applicant))
    as [r1|e] eqn:H1; [|vm_compute in H1; discriminate].
  exists r0, r1. split; [reflexivity|]. split; [reflexivity|].
  destruct (penalties_floor_at_zero (B := plain_numerals) weak_applicant r0 r1)
    as [Hdefault _].
  exact (Hdefault H0 H1).
Defined.

(* ===================================================================== *)
(** ** The rating rule *)
(* ===================================================================== *)

(** X12. The outcomes of the external-rating rule, case by case. A falsy
    rating scores 1 silently, without any conversion. A truthy rating whose
    upper-cased text is B or C scores 0 and adds the reason
    "Weak external rating (<code>)."; with any other text it scores between
    1 and 5 and adds nothing; when [str(..)] of it raises, the rule raises
    the same exception. So whenever the rule returns, the reason is added if
    and only if the score is 0. *)
Theorem rating_rule_outcomes `{B : Builtins} (v : value) (rs : list string) :
  (truthy v = false -> score_rating v rs = Ok (1, rs)) /\
  (forall code,
     truthy v = true -> str_upper v = Ok code ->
     (code = "B" \/ code = "C" ->
      score_rating v rs = Ok (0, rs ++ ["Weak external rating (" +:+ code +:+ ")."])) /\
     (code <> "B" -> code <> "C" ->
      exists s, 1 <= s <= 5 /\ score_rating v rs = Ok (s, rs))) /\
  (forall e,
     truthy v = true -> str_upper v = Raise e -> score_rating v rs = Raise e) /\
  (forall s rs', score_rating v rs = Ok (s, rs') -> (s = 0 <-> rs' <> rs)).
Proof.
  split; [|split; [|split]].
  - apply score_rating_falsy.
  - intros code Ht Hs. split.
    + by apply score_rating_weak.
    + by apply score_rating_other.
  - intros e. apply score_rating_raises.
  - intros s rs' H.
    assert (Hmsg : forall msg : string, rs ++ [msg] <> rs).
    { intros msg Heq. apply (f_equal length) in Heq.
      rewrite length_app in Heq. simpl in Heq. lia. }
    destruct (truthy v) eqn:Ht.
    + destruct (str_upper v) as [code|e] eqn:Hs.
      * destruct (String.eqb_spec code "B") as [->|HB];
          [|destruct (String.eqb_spec code "C") as [->|HC]].
        -- rewrite (score_rating_weak v "B" rs Ht Hs) in H by auto.
           injection H as <- <-. split; [auto|reflexivity].
        -- rewrite (score_rating_weak v "C" rs Ht Hs) in H by auto.
           injection H as <- <-. split; [auto|reflexivity].
        -- destruct (score_rating_other v code rs Ht Hs HB HC) as (s0 & Hs0 & H0).
           rewrite H0 in H. injection H as <- <-. split; [lia|congruence].
      * rewrite (score_rating_raises v e rs Ht Hs) in H. discriminate.
    + rewrite (score_rating_falsy v rs Ht) in H. injection H as <- <-.
      split; [lia|congruence].
Qed.

Lemma rating_rule_outcomes_witness :
  score_rating (B := plain_numerals) (VStr "b") []
    = Ok (0, ["Weak external rating (B)."]) /\
  score_rating (B := plain_numerals) (VStr "") [] = Ok (1, []) /\
  (exists s, 1 <= s <= 5 /\
     score_rating (B := plain_numerals) (VStr "unrated") [] = Ok (s, [])).
Proof.
  destruct (rating_rule_outcomes (B := plain_numerals) (VStr "b") [])
    as (_ & Hcode & _).
  destruct (rating_rule_outcomes (B := plain_numerals) (VStr "") [])
    as (Hfalsy & _).
  destruct (rating_rule_outcomes (B := plain_numerals) (VStr "unrated") [])
    as (_ & Hother & _).
  split; [|split].
  - apply (Hcode "B"); [reflexivity|reflexivity|auto].
  - apply Hfalsy. reflexivity.
  - apply (Hother "UNRATED"); [reflexivity|reflexivity|discriminate|discriminate].
Defined.

(* ===================================================================== *)
(** ** When the evaluation succeeds and which exception it raises *)
(* ===================================================================== *)

(** Run the rule at the head of the goal: these rules never raise. *)
Ltac run_rule spec :=
  match goal with
  | |- context [(?m ≫= _) ?rs] =>
      let s := fresh "s" in
      let l := fresh "l" in
      let H := fresh "H" in
      destruct (rule_spec_total m _ _ _ _ _ rs spec) as (s & l & H & _);
      rewrite (bind_run m _ s rs (rs ++ l) H)
  end.

(** The conversion at the head of the goal has returned, or has raised. *)
Ltac ran_call := erewrite bind_run by reflexivity.
Ltac raised_call := erewrite bind_raise by reflexivity; reflexivity.

Lemma first_error_app (l1 l2 : list (result unit)) :
  first_error (l1 ++ l2)
  = match first_error l1 with Some e => Some e | None => first_error l2 end.
Proof. induction l1 as [|[[]|e] l1 IH]; simpl; auto. Qed.

Lemma first_error_all_Ok (l : list (result unit)) :
  Forall is_Ok l -> first_error l = None.
Proof.
  induction 1 as [|r l [[] ->] _ IH]; simpl; auto.
Qed.

Lemma is_Ok_outcome {A} (r : result A) : is_Ok r -> is_Ok (outcome r).
Proof. intros [a ->]. exists tt. reflexivity. Qed.

Section Errors.
Context {B : Builtins}.

Lemma financial_strength_outcome data rs :
  match first_error (financial_conversions data) with
  | Some e => financial_strength_of data rs = Raise e
  | None => exists x rs', financial_strength_of data rs = Ok (x, rs')
  end.
Proof.
  unfold financial_conversions, financial_strength_of.
  destruct (py_float (get data "net_profit_margin" (VFloat 0.0))) as [npm|e];
    cbn [first_error outcome]; [ran_call|raised_call].
  destruct (py_float (get data "current_ratio" (VFloat 0.0))) as [cr|e];
    cbn [first_error outcome]; [ran_call|raised_call].
  destruct (py_float (get data "debt_to_equity" (VFloat 0.0))) as [d2e|e];
    cbn [first_error outcome]; [ran_call|raised_call].
  destruct (py_float (get data "banking_limit_utilisation" (VFloat 0.0))) as [bu|e];
    cbn [first_error outcome]; [ran_call|raised_call].
  destruct (trend_of data) as [trend|e];
    cbn [first_error outcome]; [ran_call|raised_call].
  run_rule (score_npm_spec npm).
  run_rule (score_current_ratio_spec cr).
  run_rule (score_d2e_spec d2e).
  run_rule (score_bank_spec bu).
  run_rule (score_trend_spec trend).
  eauto.
Qed.

Lemma payment_behaviour_outcome data rs :
  match first_error (payment_conversions data) with
  | Some e => payment_behaviour_of data rs = Raise e
  | None => exists x rs', payment_behaviour_of data rs = Ok (x, rs')
  end.
Proof.
  unfold payment_conversions, payment_behaviour_of, avg_days_of.
  destruct (py_int (py_or (get data "avg_days_to_pay" (VInt 45)) (VInt 45)))
    as [avg|e]; cbn [first_error outcome]; [ran_call|raised_call].
  destruct (py_int (py_or (get data "bounced_cheques_last_12m" (VInt 0)) (VInt 0)))
    as [bo|e]; cbn [first_error outcome]; [ran_call|raised_call].
  cbv zeta.
  run_rule (score_days_spec avg).
  run_rule (score_bounce_spec bo).
  run_rule (score_default_adj_spec (truthy (get data "past_default_flag" (VBool false)))).
  eauto.
Qed.

(** The rating rule returns when its text is produced and raises the
    exception of [str(..)] otherwise. *)
Lemma score_rating_outcome v rs :
  match (if truthy v then str_upper v else Ok "") with
  | Ok _ => exists s rs', score_rating v rs = Ok (s, rs')
  | Raise e => score_rating v rs = Raise e
  end.
Proof.
  destruct (truthy v) eqn:Ht.
  - destruct (str_upper v) as [code|e] eqn:Hs.
    + destruct (String.eqb_spec code "B") as [->|HB];
        [|destruct (String.eqb_spec code "C") as [->|HC]].
      * rewrite (score_rating_weak v "B" rs Ht Hs) by auto. eauto.
      * rewrite (score_rating_weak v "C" rs Ht Hs) by auto. eauto.
      * destruct (score_rating_other v code rs Ht Hs HB HC) as (s & _ & ->). eauto.
    + by apply score_rating_raises.
  - rewrite (score_rating_falsy v rs Ht). eauto.
Qed.

Lemma external_checks_outcome data rs :
  match first_error (external_conversions data) with
  | Some e => external_checks_of data rs = Raise e
  | None => exists x rs', external_checks_of data rs = Ok (x, rs')
  end.
Proof.
  unfold external_conversions, rating_text, external_checks_of. cbv zeta.
  run_rule (score_gst_spec (get data "gst_filing_timely" VNone)).
  run_rule (score_lit_spec (get data "active_litigation" VNone)).
  pose proof (score_rating_outcome (get data "credit_rating" VNone) ((rs ++ l) ++ l0))
    as Hr.
  destruct (if truthy (get data "credit_rating" VNone)
            then str_upper (get data "credit_rating" VNone) else Ok "") as [code|e];
    cbn [first_error outcome].
  - destruct Hr as (s1 & rs' & Hr). rewrite (bind_run _ _ _ _ _ Hr). eauto.
  - by apply bind_raise.
Qed.

Lemma business_stability_outcome data rs :
  match first_error (stability_conversions data) with
  | Some e => business_stability_of data rs = Raise e
  | None => exists x rs', business_stability_of data rs = Ok (x, rs')
  end.
Proof.
  unfold stability_conversions, business_stability_of.
  destruct (py_float (py_or (get data "years_in_business" (VFloat 0.0)) (VFloat 0.0)))
    as [ye|e]; cbn [first_error outcome]; [ran_call|raised_call].
  destruct (str_lower (py_or (get data "industry_risk" (VStr "medium")) (VStr "medium")))
    as [ind|e]; cbn [first_error outcome]; [ran_call|raised_call].
  destruct (py_float (py_or (get data "top_5_customer_share" (VFloat 0.0)) (VFloat 0.0)))
    as [t5|e]; cbn [first_error outcome]; [ran_call|raised_call].
  cbv zeta.
  run_rule (score_years_spec ye).
  run_rule (score_industry_spec ind).
  run_rule (score_conc_spec t5).
  unfold mgmt_penalty.
  destruct (truthy (get data "management_risk_flag" (VBool false))); eauto.
Qed.

Lemma evaluate_customer_outcome data :
  match first_error (conversions data) with
  | Some e => evaluate_customer data = Raise e
  | None => is_Ok (evaluate_customer data)
  end.
Proof.
  unfold conversions, evaluate_customer, evaluate_body. rewrite !first_error_app.
  pose proof (financial_strength_outcome data []) as Hf.
  destruct (first_error (financial_conversions data)) as [e|].
  { rewrite (bind_raise _ _ _ _ Hf). reflexivity. }
  destruct Hf as (fs & rs1 & Hf). rewrite (bind_run _ _ _ _ _ Hf).
  pose proof (payment_behaviour_outcome data rs1) as Hp.
  destruct (first_error (payment_conversions data)) as [e|].
  { rewrite (bind_raise _ _ _ _ Hp). reflexivity. }
  destruct Hp as (pb & rs2 & Hp). rewrite (bind_run _ _ _ _ _ Hp).
  pose proof (external_checks_outcome data rs2) as He.
  destruct (first_error (external_conversions data)) as [e|].
  { rewrite (bind_raise _ _ _ _ He). reflexivity. }
  destruct He as (ec & rs3 & He). rewrite (bind_run _ _ _ _ _ He).
  pose proof (business_stability_outcome data rs3) as Hs.
  destruct (first_error (stability_conversions data)) as [e|].
  { rewrite (bind_raise _ _ _ _ Hs). reflexivity. }
  destruct Hs as (bs & rs4 & Hs). rewrite (bind_run _ _ _ _ _ Hs).
  unfold is_Ok. eauto.
Qed.

End Errors.

(** X6. [evaluate_customer] returns a result exactly when its eleven
    conversions succeed: the four [float(..)] and the [str(..)] of
    turnover_trend in the financial block, the two [int(.. or ..)] of the
    payment block, the [str(..)] of a truthy credit_rating, and the
    [float(.. or 0.0)], [str(..)] of industry_risk and [float(.. or 0.0)] of
    the stability block. No rule, flag or tri-state field can make it
    raise. *)
Theorem succeeds_iff_conversions_succeed `{B : Builtins} (data : gmap string value) :
  is_Ok (evaluate_customer data) <->
  is_Ok (py_float (get data "net_profit_margin" (VFloat 0.0))) /\
  is_Ok (py_float (get data "current_ratio" (VFloat 0.0))) /\
  is_Ok (py_float (get data "debt_to_equity" (VFloat 0.0))) /\
  is_Ok (py_float (get data "banking_limit_utilisation" (VFloat 0.0))) /\
  is_Ok (str_lower (py_or (get data "turnover_trend" (VStr "stable")) (VStr ""))) /\
  is_Ok (py_int (py_or (get data "avg_days_to_pay" (VInt 45)) (VInt 45))) /\
  is_Ok (py_int (py_or (get data "bounced_cheques_last_12m" (VInt 0)) (VInt 0))) /\
  (truthy (get data "credit_rating" VNone) = true ->
   is_Ok (str_upper (get data "credit_rating" VNone))) /\
  is_Ok (py_float (py_or (get data "years_in_business" (VFloat 0.0)) (VFloat 0.0))) /\
  is_Ok (str_lower (py_or (get data "industry_risk" (VStr "medium")) (VStr "medium"))) /\
  is_Ok (py_float (py_or (get data "top_5_customer_share" (VFloat 0.0)) (VFloat 0.0))).
Proof.
  split.
  - intros [r H]. apply evaluate_customer_formula in H
      as (n & (C1 & C2 & C3 & C4 & C5 & C6 & C7 & C8 & C9 & C10 & C11) & _).
    unfold trend_of, rating_text in *. unfold is_Ok.
    repeat split; try (eexists; eassumption).
    intros Ht. rewrite Ht in C8. eauto.
  - intros (H1 & H2 & H3 & H4 & H5 & H6 & H7 & H8 & H9 & H10 & H11).
    pose proof (evaluate_customer_outcome data) as Hout.
    rewrite first_error_all_Ok in Hout; [exact Hout|].
    unfold conversions, financial_conversions, payment_conversions,
      external_conversions, stability_conversions, trend_of, rating_text.
    cbn [app].
    repeat first [apply List.Forall_cons | apply List.Forall_nil];
      apply is_Ok_outcome; try assumption.
    destruct (truthy (get data "credit_rating" VNone)); [auto|by exists ""].
Qed.

(** The weak applicant gives its numbers as numbers and is scored; a
    years_in_business given as a word is not. *)
Lemma succeeds_iff_conversions_succeed_witness :
  is_Ok (evaluate_customer (B := plain_numerals) weak_applicant) /\
  ~ is_Ok (evaluate_customer (B := plain_numerals) {[ "years_in_business" := VStr "ten" ]}).
Proof.
  split.
  - apply (succeeds_iff_conversions_succeed (B := plain_numerals) weak_applicant).
    unfold is_Ok. repeat split; try intros _; eexists; vm_compute; reflexivity.
  - intros H.
    apply (succeeds_iff_conversions_succeed (B := plain_numerals)) in H
      as (_ & _ & _ & _ & _ & _ & _ & _ & [a Ha] & _).
    vm_compute in Ha. discriminate.
Defined.

(** [str(..)] of an integer of more than 4300 digits raises; shorter
    integers are printed. *)
Lemma py_str_too_long `{B : Builtins} (n : Z) :
  10 ^ max_str_digits <= Z.abs n -> py_str (VInt n) = Raise ValueError.
Proof.
  intros H. unfold py_str.
  destruct (Z.ltb_spec (Z.abs n) (10 ^ max_str_digits)); [lia|reflexivity].
Qed.

Lemma py_str_within_limit `{B : Builtins} (n : Z) :
  Z.abs n < 10 ^ max_str_digits -> py_str (VInt n) = Ok (pretty n).
Proof.
  intros H. unfold py_str.
  destruct (Z.ltb_spec (Z.abs n) (10 ^ max_str_digits)); [reflexivity|lia].
Qed.

(** A turnover_trend given as an integer of more than 4300 digits makes
    the call raise although every number converts. *)
Lemma over_long_trend_raises `{B : Builtins} (n : Z) :
  10 ^ max_str_digits <= Z.abs n ->
  evaluate_customer {[ "turnover_trend" := VInt n ]} = Raise ValueError.
Proof.
  intros Hn.
  assert (Hpos : 0 < 10 ^ max_str_digits)
    by (apply Z.pow_pos_nonneg; unfold max_str_digits; lia).
  pose proof (evaluate_customer_outcome {[ "turnover_trend" := VInt n ]}) as H.
  unfold conversions, financial_conversions, trend_of, get in H.
  rewrite lookup_singleton_eq, !lookup_singleton_ne in H by done.
  unfold py_or, truthy, str_lower in H.
  destruct (Z.eqb_spec n 0) as [->|_]; [lia|].
  cbn [negb] in H. rewrite (py_str_too_long n Hn) in H.
  cbn [py_float outcome first_error app] in H. exact H.
Qed.

(** X13. When [evaluate_customer] raises, the exception is that of the
    first failing conversion in source order: the [float(..)] of
    net_profit_margin, current_ratio, debt_to_equity and
    banking_limit_utilisation, the [str(..)] of turnover_trend, the
    [int(..)] of avg_days_to_pay and bounced_cheques_last_12m, the [str(..)]
    of a truthy credit_rating, the [float(..)] of years_in_business, the
    [str(..)] of industry_risk and the [float(..)] of top_5_customer_share.
    It raises nothing else. *)
Theorem raises_first_failing_conversion `{B : Builtins}
    (data : gmap string value) (e : exn) :
  evaluate_customer data = Raise e <-> first_error (conversions data) = Some e.
Proof.
  pose proof (evaluate_customer_outcome data) as H.
  destruct (first_error (conversions data)) as [e0|].
  - rewrite H. split; intros [= ->]; reflexivity.
  - destruct H as [r ->]. split; discriminate.
Qed.

(** A null margin is reported before a malformed payment delay. *)
Lemma raises_first_failing_conversion_witness :
  evaluate_customer (B := plain_numerals)
    (<["net_profit_margin" := VNone]> {[ "avg_days_to_pay" := VStr "soon" ]})
  = Raise TypeError.
Proof.
  apply (raises_first_failing_conversion (B := plain_numerals)).
  vm_compute. reflexivity.
Defined.

(* ===================================================================== *)
(** ** The clamp *)
(* ===================================================================== *)

(** X15. [_clamp(x, lo, hi)] with lo <= hi returns x when it lies in
    [lo, hi], lo when x is below and hi when x is above; applying it twice
    changes nothing and it is monotone in x. With the bounds in the wrong
    order (hi < lo) it returns lo whatever x is. *)
Theorem clamp_cases (x y lo hi : Z) :
  (lo <= hi ->
     (x < lo -> _clamp x lo hi = lo) /\
     (lo <= x <= hi -> _clamp x lo hi = x) /\
     (hi < x -> _clamp x lo hi = hi)) /\
  (hi < lo -> _clamp x lo hi = lo) /\
  _clamp (_clamp x lo hi) lo hi = _clamp x lo hi /\
  (x <= y -> _clamp x lo hi <= _clamp y lo hi).
Proof. unfold _clamp. repeat split; intros; lia. Qed.

Lemma clamp_cases_witness :
  _clamp (-5) 0 30 = 0 /\ _clamp 18 0 30 = 18 /\ _clamp 42 0 30 = 30 /\
  _clamp 7 10 0 = 10.
Proof.
  destruct (clamp_cases (-5) 0 0 30) as (H1 & _).
  destruct (clamp_cases 18 0 0 30) as (H2 & _).
  destruct (clamp_cases 42 0 0 30) as (H3 & _).
  destruct (clamp_cases 7 0 10 0) as (_ & H4 & _).
  split; [|split; [|split]].
  - apply H1; lia.
  - apply H2; lia.
  - apply H3; lia.
  - apply H4; lia.
Defined.
